(** * Verification model of the ADGM corporate-agent document pipeline

    Shallow embedding of [checklist.py], [doc_processor.py] and
    [comments_util.py].  Python strings are modelled as Rocq [string]s over
    ASCII; [str.lower] is modelled on the ASCII range (upper-case letters
    A-Z are mapped to a-z, every other character is kept), and
    [str.strip] uses the ASCII characters that Python treats as
    whitespace.  A [.docx] document is modelled by its top-level
    paragraphs (python-docx's [doc.paragraphs]), each a list of runs. *)

From Stdlib Require Import Ascii String Bool Arith Lia Permutation Sorted.
From stdpp Require Import base list gmap strings.

(* ------------------------------------------------------------------ *)
(** ** Python string primitives *)

Module Py.

(** [c.lower()] on one ASCII character. *)
Definition lower_char (c : ascii) : ascii :=
  let n := nat_of_ascii c in
  if (65 <=? n) && (n <=? 90) then ascii_of_nat (n + 32) else c.

(** [s.lower()]. *)
Fixpoint lower (s : string) : string :=
  match s with
  | EmptyString => EmptyString
  | String c s' => String (lower_char c) (lower s')
  end.

(** [s.startswith(p)]. *)
Fixpoint prefixb (p s : string) : bool :=
  match p, s with
  | EmptyString, _ => true
  | String a p', String b s' => Ascii.eqb a b && prefixb p' s'
  | String _ _, EmptyString => false
  end.

(** Python's substring test [k in s]. *)
Fixpoint contains (k s : string) : bool :=
  prefixb k s ||
  match s with
  | EmptyString => false
  | String _ s' => contains k s'
  end.

(** [sep.join(l)]. *)
Fixpoint join (sep : string) (l : list string) : string :=
  match l with
  | [] => EmptyString
  | [x] => x
  | x :: r => x +:+ sep +:+ join sep r
  end.

(** Characters for which Python's [str.isspace] holds, restricted to
    ASCII: tab, line feed, vertical tab, form feed, carriage return, the
    four information separators 0x1c-0x1f and space. *)
Definition is_ws (c : ascii) : bool :=
  let n := nat_of_ascii c in
  ((9 <=? n) && (n <=? 13)) || ((28 <=? n) && (n <=? 32)).

(** [s.lstrip()]. *)
Fixpoint lstrip (s : string) : string :=
  match s with
  | EmptyString => EmptyString
  | String c s' => if is_ws c then lstrip s' else s
  end.

(** [s.rstrip()]. *)
Fixpoint rstrip (s : string) : string :=
  match s with
  | EmptyString => EmptyString
  | String c s' =>
      match rstrip s' with
      | EmptyString => if is_ws c then EmptyString else String c EmptyString
      | r => String c r
      end
  end.

(** [s.strip()]. *)
Definition strip (s : string) : string := rstrip (lstrip s).

(** [s[:n]]. *)
Definition take (n : nat) (s : string) : string := substring 0 n s.

End Py.

Import Py.

(* ------------------------------------------------------------------ *)
(** ** checklist.py *)

Module Checklist.

(** [REQUIRED_DOCS]. *)
Definition REQUIRED_DOCS : gmap string (list string) :=
  list_to_map [
    ("Company Incorporation",
      ["Articles of Association";
       "Memorandum of Association";
       "Board Resolution";
       "Shareholder Resolution";
       "UBO Declaration Form";
       "Register of Members and Directors";
       "Incorporation Application Form"]);
    ("Employment & HR",
      ["Employment Contract";
       "Offer Letter";
       "Employee Handbook"])].

(** [REQUIRED_DOCS.get(process, [])]. *)
Definition required_for (process : string) : list string :=
  default [] (REQUIRED_DOCS !! process).

Definition any_in (keys : list string) (hay : string) : bool :=
  existsb (fun k => contains k hay) keys.

Definition INCORPORATION_KEYS : list string :=
  ["incorporation"; "articles"; "memorandum"; "ubo"; "register"].
Definition EMPLOYMENT_KEYS : list string :=
  ["employment"; "contract"; "hr"].

(** [detect_process_from_docs]. *)
Definition detect_process_from_docs (filenames : list string) : string :=
  let joined := join " " (map lower filenames) in
  if any_in INCORPORATION_KEYS joined then "Company Incorporation"
  else if any_in EMPLOYMENT_KEYS joined then "Employment & HR"
  else "Company Incorporation".

(** [DOC_TYPE_KEYWORDS], in the dict's insertion order. *)
Definition DOC_TYPE_KEYWORDS : list (string * list string) := [
  ("Articles of Association", ["articles of association"; "aoa"]);
  ("Memorandum of Association", ["memorandum of association"; "moa"; "mou"]);
  ("Board Resolution", ["board resolution"]);
  ("Shareholder Resolution", ["shareholder resolution"]);
  ("UBO Declaration Form", ["ubo"; "ultimate beneficial owner"]);
  ("Register of Members and Directors",
     ["register of members"; "register of directors"]);
  ("Incorporation Application Form",
     ["incorporation application"; "application form"]);
  ("Employment Contract",
     ["employment contract"; "standard employment contract"])].

(** The [for doc_type, keys in DOC_TYPE_KEYWORDS.items()] loop. *)
Fixpoint classify_loop (table : list (string * list string)) (hay : string)
    : string :=
  match table with
  | [] => "Unknown"
  | (doc_type, keys) :: rest =>
      if any_in keys hay then doc_type else classify_loop rest hay
  end.

(** [classify_doc_type]. *)
Definition classify_doc_type (filename text : string) : string :=
  let hay := lower filename +:+ " " +:+ lower text in
  classify_loop DOC_TYPE_KEYWORDS hay.

End Checklist.

Import Checklist.

(* ------------------------------------------------------------------ *)
(** ** doc_processor.py: red-flag detection *)

Module DocProcessor.

Inductive severity := Low | Medium | High.

(** A LangChain [Document] returned by the retriever: its text and its
    [metadata] dict. *)
Record hit := mk_hit { page_content : string; metadata : gmap string string }.

(** [retriever.get_relevant_documents(query)]: the retriever is any
    function from queries to ranked hits. *)
Definition retriever := string -> list hit.

(** The issue dict built by [_find_red_flags]. *)
Record issue := mk_issue {
  issue_text : string;
  issue_severity : severity;
  issue_suggestion : string;
  issue_citation : string }.

Definition BAD_JURISDICTION : list string :=
  ["uae federal court"; "dubai courts"; "onshore uae"].
Definition WEAK_LANGUAGE : list string :=
  ["may at its discretion"; "best efforts"; "commercially reasonable efforts"].
Definition MISSING_SIGN_KEYS : list string :=
  ["signature"; "signed by"; "authorised signatory"; "authorized signatory";
   "date"; "name"].

(** [refs[0].metadata.get("source", fallback) if refs else fallback]. *)
Definition cite (refs : list hit) (fallback : string) : string :=
  match refs with
  | [] => fallback
  | h :: _ => default fallback (metadata h !! "source")
  end.

Definition JURISDICTION_QUERY : string :=
  "ADGM jurisdiction clause Companies Regulations courts venue".
Definition weak_query (doc_type : string) : string :=
  "binding language " +:+ doc_type +:+ " ADGM template clause shall must".
Definition sign_query (doc_type : string) : string :=
  doc_type +:+ " signature block ADGM template".

Definition JURISDICTION_ISSUE : string :=
  "Jurisdiction references onshore UAE/Federal Courts".
Definition weak_issue_text (term : string) : string :=
  "Ambiguous/weak obligation: '" +:+ term +:+ "'".
Definition SIGN_ISSUE : string := "Missing or incomplete signatory section.".

Definition jurisdiction_issue (r : retriever) : issue :=
  mk_issue JURISDICTION_ISSUE High
    "Update governing law and forum to ADGM Courts."
    (cite (r JURISDICTION_QUERY) "ADGM Regulation").

Definition weak_issue (r : retriever) (doc_type term : string) : issue :=
  mk_issue (weak_issue_text term) Medium
    "Prefer firm language ('shall', specific obligations)."
    (cite (r (weak_query doc_type)) "ADGM Guidance/Template").

Definition sign_issue (r : retriever) (doc_type : string) : issue :=
  mk_issue SIGN_ISSUE High
    "Add an authorised signatory block with name, title, date, signature."
    (cite (r (sign_query doc_type)) "ADGM Template").

(** Rule 1: [for term in BAD_JURISDICTION: if term in lowers: ...; break]. *)
Fixpoint jurisdiction_loop (r : retriever) (lowers : string)
    (terms : list string) : list issue :=
  match terms with
  | [] => []
  | term :: rest =>
      if contains term lowers then [jurisdiction_issue r]
      else jurisdiction_loop r lowers rest
  end.

(** Rule 2: [for term in WEAK_LANGUAGE: if term in lowers: issues.append]. *)
Fixpoint weak_loop (r : retriever) (doc_type lowers : string)
    (terms : list string) : list issue :=
  match terms with
  | [] => []
  | term :: rest =>
      if contains term lowers then weak_issue r doc_type term :: weak_loop r doc_type lowers rest
      else weak_loop r doc_type lowers rest
  end.

(** [_find_red_flags(text, retriever, doc_type)]. *)
Definition find_red_flags (text : string) (r : retriever) (doc_type : string)
    : list issue :=
  let lowers := lower text in
  jurisdiction_loop r lowers BAD_JURISDICTION ++
  weak_loop r doc_type lowers WEAK_LANGUAGE ++
  (if negb (existsb (fun k => contains k lowers) MISSING_SIGN_KEYS)
   then [sign_issue r doc_type] else []).

(* ------------------------------------------------------------------ *)
(** ** doc_processor.py: analysis and report *)

(** An uploaded file: its original name and the paragraphs of the [.docx]
    stored at its local path. *)
Record upload := mk_upload { orig_name : string; doc_paragraphs : list string }.

(** [_extract_text(doc_path, max_chars=20000)]. *)
Definition MAX_CHARS : nat := 200 * 100.
(** The one-character string ["\n"]. *)
Definition NEWLINE : string := String "010"%char EmptyString.
Definition extract_text (paragraphs : list string) : string :=
  take MAX_CHARS (join NEWLINE paragraphs).

(** The [doc_infos] entry of one upload. *)
Record doc_info := mk_info { info_name : string; info_type : string; info_text : string }.

Definition make_info (u : upload) : doc_info :=
  let text := extract_text (doc_paragraphs u) in
  mk_info (orig_name u) (classify_doc_type (orig_name u) text) text.

(** An entry of [issues_found]. *)
Record found_issue := mk_found {
  found_document : string;
  found_section : string;
  found_issue_text : string;
  found_severity : severity;
  found_suggestion : string;
  found_citation : string }.

Definition tag_issue (info : doc_info) (it : issue) : found_issue :=
  mk_found
    (if String.eqb (info_type info) "Unknown" then info_name info else info_type info)
    "N/A" (issue_text it) (issue_severity it) (issue_suggestion it)
    (issue_citation it).

(** The JSON part of the report returned by [analyze_documents]; the
    artifact paths added afterwards are not modelled. *)
Record report := mk_report {
  rep_process : string;
  rep_documents_uploaded : nat;
  rep_required_documents : nat;
  rep_missing_documents : list string;
  rep_issues_found : list found_issue }.

(** [present_types = {d["type"] for d in doc_infos if d["type"] != "Unknown"}]. *)
Definition present_types (infos : list doc_info) : gset string :=
  list_to_set (List.filter (fun t => negb (String.eqb t "Unknown"))
                 (map info_type infos)).

(** [analyze_documents(uploaded_files, retriever, process_hint)]. *)
Definition analyze_documents (uploaded_files : list upload) (r : retriever)
    (process_hint : string) : report :=
  let doc_infos := map make_info uploaded_files in
  let process := process_hint in
  let required := required_for process in
  let present := present_types doc_infos in
  let missing := List.filter (fun d => negb (bool_decide (d ∈ present))) required in
  let issues_found :=
    flat_map (fun info => map (tag_issue info)
                (find_red_flags (info_text info) r (info_type info))) doc_infos in
  mk_report process (length uploaded_files) (length required) missing issues_found.

End DocProcessor.

Import DocProcessor.

(* ------------------------------------------------------------------ *)
(** ** comments_util.py and [_insert_comments]: the annotation writer *)

Module Annotation.

(** A run of a paragraph: its text and whether it is highlighted. *)
Record run := mk_run { run_text : string; run_highlighted : bool }.

(** A paragraph is its list of runs; [paragraph.text] concatenates them. *)
Definition paragraph := list run.
Definition para_text (p : paragraph) : string :=
  fold_right (fun r acc => run_text r +:+ acc) EmptyString p.

(** A Word comment of the comments part, with the index of the paragraph
    its range marks enclose. *)
Record comment := mk_comment { cmt_para : nat; cmt_text : string }.

(** The in-memory [Document]: the paragraphs of the body and the comments
    part.  The range markers and the comment-reference run added by the
    structural path carry no text, so they leave every [paragraph.text]
    unchanged; they are represented by the [cmt_para] field. *)
Record docx := mk_docx { paragraphs : list paragraph; comments : list comment }.

(** How [_add_comment] ended: the structural branch returned [True], the
    [except] branch appended the inline note; [NotInserted] is the early
    [return False] of [add_comment_at_paragraph] for an index out of range. *)
Inductive outcome := Structural | Fallback | NotInserted.

(** [_add_comment(part, paragraph, text)]: whether the OOXML manipulation in
    the [try] block completes depends on the document's XML parts, which
    are not modelled; [structural_ok] says whether it does.  A failing
    [try] is modelled as leaving the comments part unchanged. *)
Definition add_comment (d : docx) (idx : nat) (p : paragraph) (text : string)
    (structural_ok : bool) : docx * outcome :=
  if structural_ok then
    (mk_docx (paragraphs d) (comments d ++ [mk_comment idx text]), Structural)
  else
    (mk_docx (<[idx := p ++ [mk_run (" [COMMENT] " +:+ text) true]]> (paragraphs d))
             (comments d), Fallback).

(** [add_comment_at_paragraph(doc, para_idx, text)]. *)
Definition add_comment_at_paragraph (d : docx) (para_idx : nat) (text : string)
    (structural_ok : bool) : docx * outcome :=
  match paragraphs d !! para_idx with
  | None => (d, NotInserted)
  | Some p => add_comment d para_idx p text structural_ok
  end.

(** [if p.text and len(p.text.strip()) > 3]. *)
Definition substantive (p : paragraph) : bool :=
  negb (String.eqb (para_text p) EmptyString) && (3 <? String.length (strip (para_text p))).

(** The inner [for idx, p in enumerate(doc.paragraphs)] search, starting
    at index [i]. *)
Fixpoint find_target (ps : list paragraph) (i : nat) : option nat :=
  match ps with
  | [] => None
  | p :: rest => if substantive p then Some i else find_target rest (S i)
  end.

(** [target_idx], recomputed on the current document. *)
Definition target_idx (d : docx) : nat := default 0 (find_target (paragraphs d) 0).

(** [note = f"{it['issue']} | Suggestion: {it['suggestion']} | Source: {it['citation']}"]. *)
Definition note_of (it : issue) : string :=
  issue_text it +:+ " | Suggestion: " +:+ issue_suggestion it +:+
  " | Source: " +:+ issue_citation it.

(** The loop of [_insert_comments] over the issues; [ok i] says whether the
    structural insertion of the [i]-th issue completes.  Besides the final
    document it returns, per issue, the anchor index used and the outcome. *)
Fixpoint insert_loop (ok : nat -> bool) (i : nat) (d : docx) (issues : list issue)
    : docx * list (nat * outcome) :=
  match issues with
  | [] => (d, [])
  | it :: rest =>
      let t := target_idx d in
      let '(d1, o) := add_comment_at_paragraph d t (note_of it) (ok i) in
      let '(d2, tr) := insert_loop ok (S i) d1 rest in
      (d2, (t, o) :: tr)
  end.

(** [_insert_comments(doc_path, issues)], without the file write. *)
Definition insert_comments (ok : nat -> bool) (d : docx) (issues : list issue)
    : docx * list (nat * outcome) :=
  insert_loop ok 0 d issues.

End Annotation.

Import Annotation.

(* ------------------------------------------------------------------ *)
(** ** rag.py: naming of the cached reference files *)

Module RagNames.

(** [s[n:]]. *)
Fixpoint sdrop (n : nat) (s : string) : string :=
  match n, s with
  | 0, _ => s
  | S _, EmptyString => EmptyString
  | S n', String _ s' => sdrop n' s'
  end.

(** Length of the longest prefix of [s] matched by [[^/]+]'s class. *)
Fixpoint nonslash_run (s : string) : nat :=
  match s with
  | EmptyString => 0
  | String c s' => if Ascii.eqb c "/" then 0 else S (nonslash_run s')
  end.

(** Backtracking of the greedy [[^/]+] in [([^/]+\.(pdf|docx))] at a fixed
    start: [[^/]+] covers [k] characters, [k] going down from the longest
    run to 1; the alternation tries [pdf] before [docx]; matching is
    case-insensitive ([re.IGNORECASE]). *)
Fixpoint try_lengths (s : string) (k : nat) : option string :=
  match k with
  | 0 => None
  | S k' =>
      let rest := lower (sdrop k s) in
      if prefixb ".pdf" rest then Some (take (k + 4) s)
      else if prefixb ".docx" rest then Some (take (k + 5) s)
      else try_lengths s k'
  end.

Definition match_at (s : string) : option string := try_lengths s (nonslash_run s).

(** [re.search(r"([^/]+\.(pdf|docx))", path, flags=re.IGNORECASE).group(1)]:
    the leftmost start position that matches. *)
Fixpoint regex_search (s : string) : option string :=
  match match_at s with
  | Some m => Some m
  | None =>
      match s with
      | EmptyString => None
      | String _ s' => regex_search s'
      end
  end.

(** [path.split("/")]. *)
Fixpoint split_slash (s : string) : list string :=
  match s with
  | EmptyString => [EmptyString]
  | String c s' =>
      let parts := split_slash s' in
      if Ascii.eqb c "/" then EmptyString :: parts
      else match parts with
           | [] => [String c EmptyString]
           | p :: ps => String c p :: ps
           end
  end.

(** [Path(path).name]: the last component, pathlib dropping the empty and
    ["."] components. *)
Definition path_name (path : string) : string :=
  List.last (List.filter (fun c => negb (String.eqb c EmptyString) && negb (String.eqb c "."))
               (split_slash path)) EmptyString.

(** [s.endswith(suf)]. *)
Fixpoint ends_with (suf s : string) : bool :=
  String.eqb s suf ||
  match s with
  | EmptyString => false
  | String _ s' => ends_with suf s'
  end.

(** The characters kept by [re.sub(r"[^A-Za-z0-9._+-]", "_", base)]. *)
Definition safe_char (c : ascii) : bool :=
  let n := nat_of_ascii c in
  ((65 <=? n) && (n <=? 90)) || ((97 <=? n) && (n <=? 122)) ||
  ((48 <=? n) && (n <=? 57)) ||
  Ascii.eqb c "." || Ascii.eqb c "_" || Ascii.eqb c "+" || Ascii.eqb c "-".

Fixpoint sanitize (s : string) : string :=
  match s with
  | EmptyString => EmptyString
  | String c s' => String (if safe_char c then c else "_") (sanitize s')
  end.

Fixpoint all_safe (s : string) : bool :=
  match s with
  | EmptyString => true
  | String c s' => safe_char c && all_safe s'
  end.

(** [_guess_filename_from_url(url)]; [path] is [urlparse(url).path], which
    is taken as an input: the properties below hold for every [path]. *)
Definition guess_filename (url path : string) : string :=
  let base :=
    match regex_search path with
    | Some m => m
    | None => let n := path_name path in if String.eqb n EmptyString then "adgm_ref" else n
    end in
  let lw := lower url in
  let base :=
    if negb (ends_with ".pdf" (lower base) || ends_with ".docx" (lower base)) then
      if contains ".pdf" lw then base +:+ ".pdf"
      else if contains ".docx" lw then base +:+ ".docx"
      else base
    else base in
  sanitize base.

End RagNames.

Import RagNames.

(* ------------------------------------------------------------------ *)
(** ** rag.py: download cache and index construction *)

Module RagStore.

(** The exceptions the code distinguishes: [OSErr] covers [HTTPError],
    [URLError] and [IOError] (all subclasses of [OSError]); [TypeErrNone] is
    what [raise None] raises. *)
Inductive py_error :=
| OSErr (msg : string)
| OtherErr (msg : string)
| TypeErrNone
| RuntimeErr (msg : string).

Definition caught (e : py_error) : bool :=
  match e with OSErr _ => true | _ => false end.

(** What one attempt of the body of the retry loop does: the copy completes
    with [n] bytes, or an exception [e] is raised after [written] bytes
    ([None]: before [open(dest, "wb")]). *)
Inductive attempt :=
| Fetched (n : nat)
| Failed (e : py_error) (written : option nat).

(** File sizes by path; directories are not modelled. *)
Abbreviation store := (gmap string nat).

Definition ZERO_BYTES : string := "Downloaded zero bytes".

(** [for i in range(retries)] from attempt [i] on with [fuel] attempts left;
    returns the store, the exponents [i] of the [time.sleep(backoff ** i)]
    calls, and [None] on [return] or the raised exception. *)
Fixpoint dl_loop (net : nat -> attempt) (dest : string) (i fuel : nat)
    (last_err : option py_error) (fs : store) : store * list nat * option py_error :=
  match fuel with
  | 0 => (fs, [], Some (default TypeErrNone last_err))
  | S fuel' =>
      match net i with
      | Fetched n =>
          let fs1 := <[dest := n]> fs in
          if n =? 0 then
            let '(fs2, sl, r) := dl_loop net dest (S i) fuel' (Some (OSErr ZERO_BYTES)) fs1 in
            (fs2, i :: sl, r)
          else (fs1, [], None)
      | Failed e w =>
          let fs1 := match w with Some k => <[dest := k]> fs | None => fs end in
          if caught e then
            let '(fs2, sl, r) := dl_loop net dest (S i) fuel' (Some e) fs1 in
            (fs2, i :: sl, r)
          else (fs1, [], Some e)
      end
  end.

(** [_download_with_headers(url, dest, retries)]; [net i] is the outcome of
    attempt [i] for this URL. *)
Definition download_with_headers (net : nat -> attempt) (dest : string) (retries : nat)
    (fs : store) : store * list nat * option py_error :=
  dl_loop net dest 0 retries None fs.

(** An attempt after which the loop goes on. *)
Definition retryable (a : attempt) : bool :=
  match a with
  | Fetched n => n =? 0
  | Failed e _ => caught e
  end.

(** The exception an attempt leaves in [last_err]. *)
Definition err_of (a : attempt) : py_error :=
  match a with
  | Fetched _ => OSErr ZERO_BYTES
  | Failed e _ => e
  end.

(** [not dest.exists() or dest.stat().st_size == 0]. *)
Definition needs_download (fs : store) (dest : string) : bool :=
  match fs !! dest with
  | None => true
  | Some n => n =? 0
  end.

(** [outdir / name]. *)
Definition join_path (outdir name : string) : string := outdir +:+ "/" +:+ name.

Inductive log_line :=
| Downloading (url dest : string)
| UsingCached (dest : string).

Section Download.

(** [urlparse(url).path]. *)
Variable urlpath : string -> string.
(** [net k i]: attempt [i] of the download of the [k]-th URL. *)
Variable net : nat -> nat -> attempt.
Variable outdir : string.

Definition dest_of (url : string) : string :=
  join_path outdir (guess_filename url (urlpath url)).

(** The loop of [_download_if_needed] from the [k]-th URL on. *)
Fixpoint dl_urls (k : nat) (urls : list string) (fs : store)
    : store * list log_line * (list string + py_error) :=
  match urls with
  | [] => (fs, [], inl [])
  | url :: rest =>
      let dest := dest_of url in
      if needs_download fs dest then
        match download_with_headers (net k) dest 3 fs with
        | (fs1, _, None) =>
            let '(fs2, lg, r) := dl_urls (S k) rest fs1 in
            (fs2, Downloading url dest :: lg,
             match r with inl ps => inl (dest :: ps) | inr e => inr e end)
        | (fs1, _, Some e) => (fs1, [Downloading url dest], inr e)
        end
      else
        let '(fs2, lg, r) := dl_urls (S k) rest fs in
        (fs2, UsingCached dest :: lg,
         match r with inl ps => inl (dest :: ps) | inr e => inr e end)
  end.

Definition download_if_needed (urls : list string) (fs : store) :=
  dl_urls 0 urls fs.

End Download.

Definition REF_DIR : string := "data/reference".

(** [p.exists() and p.stat().st_size > 0]. *)
Definition nonempty_file (fs : store) (p : string) : bool :=
  match fs !! p with Some n => 0 <? n | None => false end.

End RagStore.

Import RagStore.

(* ------------------------------------------------------------------ *)
(** ** doc_processor.py: the reviewed copies *)

Module Reviewed.

(** The [original_name] fields of [reviewed_paths] in [analyze_documents]:
    an entry is appended for each document whose [_find_red_flags] result is
    non-empty ([if issues:]); the paths of the written copies are not
    modelled. *)
Definition reviewed_names (uploaded_files : list upload) (r : retriever) : list string :=
  map info_name
    (List.filter
       (fun info => match find_red_flags (info_text info) r (info_type info) with
                    | [] => false
                    | _ => true
                    end)
       (map make_info uploaded_files)).

End Reviewed.

Import Reviewed.

(* ------------------------------------------------------------------ *)
(** ** app.py: the analysis step *)

Module App.

(** Step 3 of the [Analyze] handler: the process is detected from the
    uploads' original names, then [analyze_documents] runs with it. *)
Definition analyze_submission (uploads : list upload) (r : retriever) : report :=
  analyze_documents uploads r (detect_process_from_docs (map orig_name uploads)).

End App.

Import App.

(* ------------------------------------------------------------------ *)
(** ** Concrete inputs *)

Module Inputs.

(** A retriever with no hits (an empty index). *)
Definition no_hits : retriever := fun _ => [].

(** A retriever whose top hit records an empty [source]. *)
Definition empty_source_hits : retriever :=
  fun _ => [mk_hit "ADGM Companies Regulations 2020" {[ "source" := EmptyString ]}].

(** A retriever whose top hit records the path of a reference file. *)
Definition source_hits : retriever :=
  fun _ => [mk_hit "ADGM Employment Regulations 2019" {[ "source" := "data/reference/employment.docx" ]}].

(** A document whose first paragraph is "a  b" (two letters, two spaces)
    and whose second is "abcd". *)
Definition spaced_doc : docx :=
  mk_docx [[mk_run "a  b" false]; [mk_run "abcd" false]] [].

(** A document whose body has no top-level paragraph. *)
Definition no_paragraph_doc : docx := mk_docx [] [].

(** Number of non-whitespace characters of a string. *)
Fixpoint nonws_count (s : string) : nat :=
  match s with
  | EmptyString => 0
  | String c s' => (if is_ws c then 0 else 1) + nonws_count s'
  end.

(** [n] copies of the letter a. *)
Fixpoint pad (n : nat) : string :=
  match n with
  | 0 => EmptyString
  | S n' => String "a" (pad n')
  end.


End Inputs.

Import Inputs.

(* ------------------------------------------------------------------ *)
(** ** Vocabulary of the properties *)

Module Vocabulary.

(** [k] has no space character. *)
Fixpoint no_space (k : string) : bool :=
  match k with
  | EmptyString => true
  | String c k' => negb (Ascii.eqb c " ") && no_space k'
  end.

(** The document types successfully classified among the uploads, as the
    specification describes them (classification failures excluded). *)
Definition classified_types (ups : list upload) : list string :=
  List.filter (fun t => negb (String.eqb t "Unknown"))
    (map (fun u => classify_doc_type (orig_name u) (extract_text (doc_paragraphs u))) ups).

(** What the citation of an issue is, given the hits of its query and the
    fallback label of its rule. *)
Definition cited_from (refs : list hit) (fallback c : string) : Prop :=
  match refs with
  | [] => c = fallback
  | h :: _ =>
      match metadata h !! "source" with
      | Some s => c = s
      | None => c = fallback
      end
  end.

Definition FALLBACK_LABELS : list string :=
  ["ADGM Regulation"; "ADGM Guidance/Template"; "ADGM Template"].

Definition is_jurisdiction (i : issue) : bool := String.eqb (issue_text i) JURISDICTION_ISSUE.
Definition is_signature (i : issue) : bool := String.eqb (issue_text i) SIGN_ISSUE.
Definition is_medium (i : issue) : bool :=
  match issue_severity i with Medium => true | _ => false end.

(** Position of an issue in the fixed order of the specification:
    jurisdiction, weak language in [WEAK_LANGUAGE] order, signature. *)
Definition issue_rank (i : issue) : nat :=
  if String.eqb (issue_text i) JURISDICTION_ISSUE then 0
  else if String.eqb (issue_text i) (weak_issue_text "may at its discretion") then 1
  else if String.eqb (issue_text i) (weak_issue_text "best efforts") then 2
  else if String.eqb (issue_text i) (weak_issue_text "commercially reasonable efforts") then 3
  else if String.eqb (issue_text i) SIGN_ISSUE then 4
  else 5.

(** Closes [StronglySorted lt] of a concrete list of numerals. *)
Ltac solve_sorted :=
  repeat match goal with
  | |- StronglySorted _ [] => apply SSorted_nil
  | |- StronglySorted _ (_ :: _) => apply SSorted_cons
  | |- List.Forall _ [] => constructor
  | |- List.Forall _ (_ :: _) => constructor
  | |- _ < _ => lia
  end.

(** The paragraph chosen by [_insert_comments]: the first one whose text,
    stripped of leading and trailing whitespace, is longer than 3
    characters, or index 0 when there is none. *)
Definition first_substantive (ps : list paragraph) (a : nat) : Prop :=
  (exists p, ps !! a = Some p /\ substantive p = true /\
     forall k q, k < a -> ps !! k = Some q -> substantive q = false) \/
  (a = 0 /\ forall k q, ps !! k = Some q -> substantive q = false).

(** The inline notes that the issues from position [i] on leave at the
    anchor paragraph, in issue order: one " [COMMENT] ..." run for each
    issue whose structural insertion fails. *)
Fixpoint fallback_runs (ok : nat -> bool) (i : nat) (issues : list issue) : list run :=
  match issues with
  | [] => []
  | it :: rest =>
      (if ok i then [] else [mk_run (" [COMMENT] " +:+ note_of it) true]) ++
      fallback_runs ok (S i) rest
  end.

(** The structural comments, anchored at paragraph [t], that the issues
    from position [i] on add to the comments part, in issue order. *)
Fixpoint structural_comments (ok : nat -> bool) (i t : nat) (issues : list issue) : list comment :=
  match issues with
  | [] => []
  | it :: rest =>
      (if ok i then [mk_comment t (note_of it)] else []) ++ structural_comments ok (S i) t rest
  end.

End Vocabulary.

Import Vocabulary.

(* ================================================================== *)
(** * Properties *)

(* ------------------------------------------------------------------ *)
(** ** Substring facts *)

Module StringFacts.

Lemma prefixb_app_space (k a b : string) :
  no_space k = true -> prefixb k (a +:+ String " " b) = prefixb k a.
Proof.
  revert k. induction a as [|c a IH]; intros k Hk.
  - destruct k as [|d k]; [reflexivity|].
    simpl in *. apply andb_prop in Hk as [Hd _].
    destruct (Ascii.eqb d " "); [discriminate|reflexivity].
  - destruct k as [|d k]; [reflexivity|].
    simpl in *. apply andb_prop in Hk as [_ Hk].
    rewrite IH by exact Hk. reflexivity.
Qed.

Lemma contains_app_space (k a b : string) :
  no_space k = true ->
  contains k (a +:+ String " " b) = contains k a || contains k b.
Proof.
  intros Hk. induction a as [|c a IH].
  - pose proof (prefixb_app_space k EmptyString b Hk) as Hp.
    change (EmptyString +:+ String " " b) with (String " " b) in *.
    change (contains k (String " " b)) with (prefixb k (String " " b) || contains k b).
    change (contains k EmptyString) with (prefixb k EmptyString || false).
    rewrite Hp. destruct (prefixb k EmptyString); reflexivity.
  - pose proof (prefixb_app_space k (String c a) b Hk) as Hp.
    change (String c a +:+ String " " b) with (String c (a +:+ String " " b)) in *.
    change (contains k (String c (a +:+ String " " b)))
      with (prefixb k (String c (a +:+ String " " b)) || contains k (a +:+ String " " b)).
    change (contains k (String c a)) with (prefixb k (String c a) || contains k a).
    rewrite Hp, IH. apply orb_assoc.
Qed.

Lemma contains_empty (k : string) : k <> EmptyString -> contains k EmptyString = false.
Proof. destruct k; [congruence|reflexivity]. Qed.

(** A keyword without spaces occurs in [" ".join(l)] iff it occurs in one
    of the joined strings. *)
Lemma contains_join_space (k : string) (l : list string) :
  k <> EmptyString -> no_space k = true ->
  contains k (join " " l) = existsb (contains k) l.
Proof.
  intros Hne Hk. induction l as [|x l IH].
  - apply contains_empty, Hne.
  - destruct l as [|y l].
    + simpl. rewrite orb_false_r. reflexivity.
    + change (join " " (x :: y :: l)) with (x +:+ String " " (join " " (y :: l))).
      rewrite contains_app_space by exact Hk. rewrite IH. reflexivity.
Qed.

Lemma existsb_permutation {A} (f : A -> bool) (l l' : list A) :
  Permutation l l' -> existsb f l = existsb f l'.
Proof.
  induction 1 as [| x l l' _ IH | x y l | l l' l'' _ IH1 _ IH2]; simpl.
  - reflexivity.
  - rewrite IH. reflexivity.
  - rewrite !orb_assoc, (orb_comm (f y)). reflexivity.
  - congruence.
Qed.

End StringFacts.

Import StringFacts.

(* ------------------------------------------------------------------ *)
(** ** Missing documents *)

Lemma present_types_spec (ups : list upload) (d : string) :
  d ∈ present_types (map make_info ups) <-> In d (classified_types ups).
Proof.
  unfold present_types, classified_types.
  rewrite elem_of_list_to_set, list_elem_of_In, map_map. reflexivity.
Qed.

Lemma missing_documents_eq (ups : list upload) (r : retriever) (hint : string) :
  rep_missing_documents (analyze_documents ups r hint) =
  List.filter (fun d => negb (existsb (String.eqb d) (classified_types ups)))
    (required_for hint).
Proof.
  simpl. apply filter_ext. intros d. f_equal.
  apply eq_true_iff_eq. rewrite bool_decide_eq_true, present_types_spec.
  rewrite existsb_exists. split.
  - intros H. exists d. split; [exact H|apply String.eqb_refl].
  - intros (x & Hx & Hd). apply String.eqb_eq in Hd. subst. exact Hx.
Qed.

(** C1: [missing_documents] is the required list of the process, in its
    order, without the types successfully classified among the uploads;
    ["Unknown"] never satisfies a requirement.  In particular an empty
    required list gives no missing documents, and a successfully
    classified type is never missing. *)
Theorem missing_documents_spec (ups : list upload) (r : retriever) (hint : string) :
  let missing := rep_missing_documents (analyze_documents ups r hint) in
  missing = List.filter (fun d => negb (existsb (String.eqb d) (classified_types ups)))
              (required_for hint) /\
  (forall d, In d missing <->
     In d (required_for hint) /\
     ~ (exists u, In u ups /\ d <> "Unknown" /\
          classify_doc_type (orig_name u) (extract_text (doc_paragraphs u)) = d)) /\
  (required_for hint = [] -> missing = []) /\
  (forall u, In u ups ->
     classify_doc_type (orig_name u) (extract_text (doc_paragraphs u)) <> "Unknown" ->
     ~ In (classify_doc_type (orig_name u) (extract_text (doc_paragraphs u))) missing).
Proof.
  intros missing.
  assert (Hcl : forall d, In d (classified_types ups) <->
            exists u, In u ups /\ d <> "Unknown" /\
              classify_doc_type (orig_name u) (extract_text (doc_paragraphs u)) = d).
  { intros d. unfold classified_types. rewrite filter_In, in_map_iff.
    rewrite negb_true_iff, String.eqb_neq. split.
    - intros ((u & Hu & Hin) & Hne). exists u. auto.
    - intros (u & Hin & Hne & Hu). split; [exists u; auto|exact Hne]. }
  assert (Hm : forall d, In d missing <->
            In d (required_for hint) /\ ~ In d (classified_types ups)).
  { intros d. unfold missing. rewrite missing_documents_eq, filter_In.
    rewrite negb_true_iff. split.
    - intros [Hr He]. split; [exact Hr|]. intros Hin.
      assert (existsb (String.eqb d) (classified_types ups) = true) as Ht.
      { apply existsb_exists. exists d. split; [exact Hin|apply String.eqb_refl]. }
      congruence.
    - intros [Hr Hn]. split; [exact Hr|].
      destruct (existsb (String.eqb d) (classified_types ups)) eqn:E; [|reflexivity].
      apply existsb_exists in E as (x & Hx & Hd). apply String.eqb_eq in Hd. subst.
      contradiction. }
  split; [apply missing_documents_eq|].
  split; [intros d; rewrite Hm, Hcl; reflexivity|].
  split.
  - intros Hreq. unfold missing. rewrite missing_documents_eq, Hreq. reflexivity.
  - intros u Hu Hne Hin. apply Hm in Hin as [_ Hn]. apply Hn, Hcl.
    exists u. auto.
Qed.

(* ------------------------------------------------------------------ *)
(** ** Process detection *)

Lemma process_keys_ok (k : string) :
  In k (INCORPORATION_KEYS ++ EMPLOYMENT_KEYS) -> k <> EmptyString /\ no_space k = true.
Proof.
  simpl. intros H.
  repeat (destruct H as [<-|H]; [split; [discriminate|reflexivity]|]).
  contradiction.
Qed.

Lemma existsb_ext_in {A} (f g : A -> bool) (l : list A) :
  (forall x, In x l -> f x = g x) -> existsb f l = existsb g l.
Proof.
  induction l as [|x l IH]; intros H; simpl; [reflexivity|].
  rewrite (H x (or_introl eq_refl)), IH; [reflexivity|].
  intros y Hy. apply H. right. exact Hy.
Qed.

Lemma any_in_joined (keys fs : list string) :
  (forall k, In k keys -> k <> EmptyString /\ no_space k = true) ->
  any_in keys (join " " (map lower fs)) =
  existsb (fun k => existsb (contains k) (map lower fs)) keys.
Proof.
  intros Hkeys. unfold any_in. apply existsb_ext_in. intros k Hk.
  destruct (Hkeys k Hk) as [Hne Hns]. apply contains_join_space; assumption.
Qed.

Lemma detect_process_by_files (fs : list string) :
  detect_process_from_docs fs =
  if existsb (fun k => existsb (contains k) (map lower fs)) INCORPORATION_KEYS
  then "Company Incorporation"
  else if existsb (fun k => existsb (contains k) (map lower fs)) EMPLOYMENT_KEYS
  then "Employment & HR" else "Company Incorporation".
Proof.
  unfold detect_process_from_docs.
  rewrite !any_in_joined; [reflexivity| |];
    intros k Hk; apply process_keys_ok, in_or_app; auto.
Qed.

(** C7: [detect_process_from_docs] does not depend on the order of the
    filenames, and returns the default process when no keyword of any
    process occurs in any lower-cased filename. *)
Theorem detect_process_order_independent (fs fs' : list string) :
  Permutation fs fs' ->
  detect_process_from_docs fs = detect_process_from_docs fs' /\
  ((forall k f, In k (INCORPORATION_KEYS ++ EMPLOYMENT_KEYS) -> In f fs ->
      contains k (lower f) = false) ->
   detect_process_from_docs fs = "Company Incorporation").
Proof.
  intros Hp. split.
  - rewrite !detect_process_by_files.
    assert (Hm : Permutation (map lower fs) (map lower fs')) by (apply Permutation_map, Hp).
    assert (He : forall k, existsb (contains k) (map lower fs) =
                           existsb (contains k) (map lower fs'))
      by (intros k; apply existsb_permutation, Hm).
    rewrite !(existsb_ext_in (fun k => existsb (contains k) (map lower fs))
                             (fun k => existsb (contains k) (map lower fs')))
      by (intros k _; apply He).
    reflexivity.
  - intros Hnone. rewrite detect_process_by_files.
    assert (Hf : forall keys, (forall k, In k keys -> In k (INCORPORATION_KEYS ++ EMPLOYMENT_KEYS)) ->
              existsb (fun k => existsb (contains k) (map lower fs)) keys = false).
    { intros keys Hsub. apply not_true_iff_false. intros Ht.
      apply existsb_exists in Ht as (k & Hk & Ht).
      apply existsb_exists in Ht as (x & Hx & Hc).
      apply in_map_iff in Hx as (f & <- & Hf).
      rewrite (Hnone k f (Hsub k Hk) Hf) in Hc. discriminate. }
    rewrite !Hf; [reflexivity| |]; intros k Hk; apply in_or_app; auto.
Qed.

(* ------------------------------------------------------------------ *)
(** ** Red-flag detection *)

Lemma jurisdiction_loop_spec (r : retriever) (lowers : string) (terms : list string) :
  jurisdiction_loop r lowers terms =
  if existsb (fun t => contains t lowers) terms then [jurisdiction_issue r] else [].
Proof.
  induction terms as [|t terms IH]; simpl; [reflexivity|].
  destruct (contains t lowers); [reflexivity|exact IH].
Qed.

Lemma weak_loop_spec (r : retriever) (doc_type lowers : string) (terms : list string) :
  weak_loop r doc_type lowers terms =
  map (weak_issue r doc_type) (List.filter (fun t => contains t lowers) terms).
Proof.
  induction terms as [|t terms IH]; simpl; [reflexivity|].
  destruct (contains t lowers); simpl; rewrite IH; reflexivity.
Qed.

(** The three rule categories, in the order [_find_red_flags] appends them. *)
Lemma find_red_flags_parts (text : string) (r : retriever) (doc_type : string) :
  find_red_flags text r doc_type =
  (if existsb (fun t => contains t (lower text)) BAD_JURISDICTION
   then [jurisdiction_issue r] else []) ++
  map (weak_issue r doc_type)
      (List.filter (fun t => contains t (lower text)) WEAK_LANGUAGE) ++
  (if negb (existsb (fun k => contains k (lower text)) MISSING_SIGN_KEYS)
   then [sign_issue r doc_type] else []).
Proof.
  unfold find_red_flags. rewrite jurisdiction_loop_spec, weak_loop_spec. reflexivity.
Qed.

Lemma cite_cited_from (refs : list hit) (fallback : string) :
  cited_from refs fallback (cite refs fallback).
Proof.
  destruct refs as [|h refs]; simpl; [reflexivity|].
  destruct (metadata h !! "source"); reflexivity.
Qed.

Lemma cite_nonempty (refs : list hit) (fallback : string) :
  fallback <> EmptyString ->
  (forall h rest s, refs = h :: rest -> metadata h !! "source" = Some s -> s <> EmptyString) ->
  cite refs fallback <> EmptyString.
Proof.
  intros Hfb Hsrc. destruct refs as [|h rest]; simpl; [exact Hfb|].
  destruct (metadata h !! "source") as [s|] eqn:E; simpl; [|exact Hfb].
  exact (Hsrc h rest s eq_refl E).
Qed.

(** C2 (as amended): every issue's citation comes from the query of its
    own rule, with that rule's fallback label: the jurisdiction issue from
    [JURISDICTION_QUERY] with "ADGM Regulation", a weak-language issue from
    the weak-language query of the document type with "ADGM
    Guidance/Template", the signature issue from the signature query with
    "ADGM Template".  The citation is the [source] metadata of the top hit
    when there is a hit that carries one, the fallback label otherwise; it
    is therefore non-empty whenever the top hits' [source] values are. *)
Theorem citations_of_issues (text : string) (r : retriever) (doc_type : string) :
  Forall (fun i =>
      (issue_text i = JURISDICTION_ISSUE /\
       cited_from (r JURISDICTION_QUERY) "ADGM Regulation" (issue_citation i)) \/
      (exists t, In t WEAK_LANGUAGE /\ issue_text i = weak_issue_text t /\
       cited_from (r (weak_query doc_type)) "ADGM Guidance/Template" (issue_citation i)) \/
      (issue_text i = SIGN_ISSUE /\
       cited_from (r (sign_query doc_type)) "ADGM Template" (issue_citation i)))
    (find_red_flags text r doc_type) /\
  ((forall q h rest s, r q = h :: rest -> metadata h !! "source" = Some s -> s <> EmptyString) ->
   Forall (fun i => issue_citation i <> EmptyString) (find_red_flags text r doc_type)).
Proof.
  rewrite find_red_flags_parts. split.
  - apply Forall_app. split; [|apply Forall_app; split].
    + destruct (existsb _ _); constructor; [|constructor].
      left. split; [reflexivity|apply cite_cited_from].
    + apply Forall_forall. intros i Hi. apply list_elem_of_In, in_map_iff in Hi as (t & <- & Ht).
      apply filter_In in Ht as [Ht _].
      right; left. exists t. split; [exact Ht|split; [reflexivity|apply cite_cited_from]].
    + destruct (negb _); constructor; [|constructor].
      right; right. split; [reflexivity|apply cite_cited_from].
  - intros Hsrc.
    assert (Hc : forall q fb, fb <> EmptyString -> cite (r q) fb <> EmptyString).
    { intros q fb Hfb. apply cite_nonempty; [exact Hfb|]. intros h rest s Hr.
      apply (Hsrc q h rest s Hr). }
    apply Forall_app. split; [|apply Forall_app; split].
    + destruct (existsb _ _); constructor; [|constructor]. apply Hc. discriminate.
    + apply Forall_forall. intros i Hi. apply list_elem_of_In, in_map_iff in Hi as (t & <- & _).
      apply Hc. discriminate.
    + destruct (negb _); constructor; [|constructor]. apply Hc. discriminate.
Qed.

Lemma weak_not_jurisdiction (r : retriever) (doc_type : string) (ts : list string) :
  List.filter is_jurisdiction (map (weak_issue r doc_type) ts) = [].
Proof. induction ts as [|t ts IH]; simpl; [reflexivity|exact IH]. Qed.

Lemma weak_not_signature (r : retriever) (doc_type : string) (ts : list string) :
  List.filter is_signature (map (weak_issue r doc_type) ts) = [].
Proof. induction ts as [|t ts IH]; simpl; [reflexivity|exact IH]. Qed.

Lemma weak_all_medium (r : retriever) (doc_type : string) (ts : list string) :
  List.filter is_medium (map (weak_issue r doc_type) ts) = map (weak_issue r doc_type) ts.
Proof. induction ts as [|t ts IH]; simpl; [reflexivity|rewrite IH; reflexivity]. Qed.

(** C4: the jurisdiction rule emits exactly one issue, of severity [High],
    when some phrase of [BAD_JURISDICTION] occurs in the lower-cased text,
    however many of them occur, and none otherwise. *)
Theorem jurisdiction_issue_at_most_once (text : string) (r : retriever) (doc_type : string) :
  let js := List.filter is_jurisdiction (find_red_flags text r doc_type) in
  length js = (if existsb (fun t => contains t (lower text)) BAD_JURISDICTION then 1 else 0) /\
  Forall (fun i => issue_severity i = High) js.
Proof.
  intros js. unfold js. rewrite find_red_flags_parts, !List.filter_app, weak_not_jurisdiction.
  destruct (existsb _ BAD_JURISDICTION), (negb _); simpl;
    split; repeat constructor.
Qed.

(** C5 (as amended): the [Medium] issues are the weak-language issues, one
    per phrase of [WEAK_LANGUAGE] whose lower-cased form occurs in the
    lower-cased text, in list order and all distinct; a text containing
    both "may at its discretion" and "best efforts" yields two of them,
    or three when it also contains "commercially reasonable efforts". *)
Theorem weak_language_issues (text : string) (r : retriever) (doc_type : string) :
  let ms := List.filter is_medium (find_red_flags text r doc_type) in
  ms = map (weak_issue r doc_type)
         (List.filter (fun t => contains (lower t) (lower text)) WEAK_LANGUAGE) /\
  NoDup (map issue_text ms) /\
  (contains "may at its discretion" (lower text) = true ->
   contains "best efforts" (lower text) = true ->
   length ms = if contains "commercially reasonable efforts" (lower text) then 3 else 2).
Proof.
  intros ms.
  assert (Hms : ms = map (weak_issue r doc_type)
                       (List.filter (fun t => contains t (lower text)) WEAK_LANGUAGE)).
  { unfold ms. rewrite find_red_flags_parts, !List.filter_app, weak_all_medium.
    destruct (existsb _ BAD_JURISDICTION), (negb _); simpl;
      rewrite ?app_nil_r; reflexivity. }
  split; [|split].
  - rewrite Hms. reflexivity.
  - rewrite Hms. simpl.
    destruct (contains "may at its discretion" (lower text)),
             (contains "best efforts" (lower text)),
             (contains "commercially reasonable efforts" (lower text));
      simpl; apply (bool_decide_unpack _); vm_compute; reflexivity.
  - intros H1 H2. rewrite Hms. simpl. rewrite H1, H2.
    destruct (contains "commercially reasonable efforts" (lower text)); reflexivity.
Qed.

Lemma issue_rank_values (r : retriever) (doc_type : string) :
  issue_rank (jurisdiction_issue r) = 0 /\
  issue_rank (weak_issue r doc_type "may at its discretion") = 1 /\
  issue_rank (weak_issue r doc_type "best efforts") = 2 /\
  issue_rank (weak_issue r doc_type "commercially reasonable efforts") = 3 /\
  issue_rank (sign_issue r doc_type) = 4.
Proof. repeat split; vm_compute; reflexivity. Qed.

(** C6: the issues come in strictly increasing rank (jurisdiction, then
    weak language in list order, then signature), no issue is emitted
    twice, and when no signature keyword occurs the signature issue, of
    severity [High], is emitted exactly once and last. *)
Theorem red_flags_order (text : string) (r : retriever) (doc_type : string) :
  let is := find_red_flags text r doc_type in
  StronglySorted lt (map issue_rank is) /\ NoDup is /\
  (existsb (fun k => contains k (lower text)) MISSING_SIGN_KEYS = false ->
   List.filter is_signature is = [sign_issue r doc_type] /\
   issue_severity (sign_issue r doc_type) = High /\
   exists pre, is = pre ++ [sign_issue r doc_type]).
Proof.
  intros is. unfold is. rewrite find_red_flags_parts.
  destruct (issue_rank_values r doc_type) as (R0 & R1 & R2 & R3 & R4).
  split; [|split].
  - unfold WEAK_LANGUAGE. simpl List.filter.
    destruct (existsb _ BAD_JURISDICTION),
             (contains "may at its discretion" (lower text)),
             (contains "best efforts" (lower text)),
             (contains "commercially reasonable efforts" (lower text)),
             (negb _); cbn [map app]; rewrite ?R0, ?R1, ?R2, ?R3, ?R4;
      solve_sorted.
  - apply NoDup_fmap_1 with (f := issue_rank).
    unfold WEAK_LANGUAGE. simpl List.filter.
    destruct (existsb _ BAD_JURISDICTION),
             (contains "may at its discretion" (lower text)),
             (contains "best efforts" (lower text)),
             (contains "commercially reasonable efforts" (lower text)),
             (negb _); apply (bool_decide_unpack _); vm_compute; reflexivity.
  - intros Hs. rewrite Hs. simpl negb. cbv iota.
    split; [|split; [reflexivity|]].
    + rewrite !List.filter_app, weak_not_signature.
      destruct (existsb _ BAD_JURISDICTION); reflexivity.
    + eexists. rewrite app_assoc. reflexivity.
Qed.

(* ------------------------------------------------------------------ *)
(** ** Scenario A *)

Lemma classify_AoA (text : string) :
  classify_doc_type "AoA.docx" text = "Articles of Association".
Proof. unfold classify_doc_type. simpl. rewrite orb_true_r. reflexivity. Qed.

Lemma classify_MoA (text : string) :
  classify_doc_type "MoA.docx" text =
  if contains "articles of association" (lower text) || contains "aoa" (lower text)
  then "Articles of Association" else "Memorandum of Association".
Proof.
  unfold classify_doc_type. simpl.
  change (EmptyString +:+ lower text) with (lower text).
  rewrite orb_true_r, orb_false_r. reflexivity.
Qed.

(** C3 (as amended): for the uploads ["AoA.docx"; "MoA.docx"] with the
    process detected from their names, the process is "Company
    Incorporation" and 7 documents are required; the 5 documents of the
    specification are missing, together with "Memorandum of Association"
    exactly when the extracted text of MoA.docx mentions "articles of
    association" or "aoa" (it is then classified as the Articles). *)
Theorem scenario_A (p1 p2 : list string) (r : retriever) :
  let fs := ["AoA.docx"; "MoA.docx"] in
  let rep := analyze_documents [mk_upload "AoA.docx" p1; mk_upload "MoA.docx" p2] r
               (detect_process_from_docs fs) in
  rep_process rep = "Company Incorporation" /\
  rep_required_documents rep = 7 /\
  rep_missing_documents rep =
    (if contains "articles of association" (lower (extract_text p2)) ||
        contains "aoa" (lower (extract_text p2))
     then ["Memorandum of Association"] else []) ++
    ["Board Resolution"; "Shareholder Resolution"; "UBO Declaration Form";
     "Register of Members and Directors"; "Incorporation Application Form"].
Proof.
  intros fs rep.
  assert (Hp : detect_process_from_docs fs = "Company Incorporation")
    by (vm_compute; reflexivity).
  unfold rep. rewrite Hp. split; [reflexivity|split; [vm_compute; reflexivity|]].
  rewrite missing_documents_eq. unfold classified_types. simpl map.
  rewrite classify_AoA, classify_MoA.
  destruct (_ || _); vm_compute; reflexivity.
Qed.

(* ------------------------------------------------------------------ *)
(** ** Truncation of the extracted text *)

Lemma take_app (t1 t2 : string) : take (String.length t1) (t1 +:+ t2) = t1.
Proof.
  unfold take. induction t1 as [|c t1 IH]; [destruct t2; reflexivity|].
  simpl. f_equal. exact IH.
Qed.

(** C10: the text of a document that is classified and scanned for red
    flags is its first [MAX_CHARS] = 20000 characters: whatever follows
    them in the joined paragraph text has no influence on its type, on its
    issues or on the report. *)
Theorem analysis_sees_first_20000 (name : string) (paras : list string) (r : retriever)
    (hint t1 t2 : string) :
  join NEWLINE paras = t1 +:+ t2 ->
  String.length t1 = MAX_CHARS ->
  let info := make_info (mk_upload name paras) in
  info_text info = t1 /\
  info_type info = classify_doc_type name t1 /\
  rep_issues_found (analyze_documents [mk_upload name paras] r hint) =
    map (tag_issue (mk_info name (classify_doc_type name t1) t1))
        (find_red_flags t1 r (classify_doc_type name t1)).
Proof.
  intros Hj Hl info.
  assert (He : extract_text paras = t1).
  { unfold extract_text. rewrite Hj, <- Hl. apply take_app. }
  unfold info. simpl. unfold make_info. simpl. rewrite He, app_nil_r.
  split; [reflexivity|split; reflexivity].
Qed.

(* ------------------------------------------------------------------ *)
(** ** Annotation anchors *)

(** [String.append] is [simpl never] under stdpp; its two equations. *)
Lemma append_empty_l (y : string) : EmptyString +:+ y = y.
Proof. reflexivity. Qed.

Lemma append_string_l (c : ascii) (x y : string) : String c x +:+ y = String c (x +:+ y).
Proof. reflexivity. Qed.

Lemma rstrip_app (x y : string) :
  rstrip (x +:+ y) = match rstrip y with EmptyString => rstrip x | r => x +:+ r end.
Proof.
  induction x as [|c x IH].
  - rewrite append_empty_l. destruct (rstrip y); reflexivity.
  - rewrite append_string_l. simpl rstrip at 1.
    rewrite IH. destruct (rstrip y) as [|d r] eqn:E.
    + reflexivity.
    + destruct x; reflexivity.
Qed.

Lemma rstrip_app_nonempty (x y : string) :
  rstrip y <> EmptyString -> rstrip (x +:+ y) = x +:+ rstrip y.
Proof. intros H. rewrite rstrip_app. destruct (rstrip y); [congruence|reflexivity]. Qed.

Lemma rstrip_cons_nonempty (c : ascii) (s : string) :
  rstrip s <> EmptyString -> rstrip (String c s) = String c (rstrip s).
Proof. intros H. simpl. destruct (rstrip s); [congruence|reflexivity]. Qed.

Lemma lstrip_app (x y : string) :
  lstrip (x +:+ y) = match lstrip x with EmptyString => lstrip y | _ => lstrip x +:+ y end.
Proof.
  induction x as [|c x IH]; [reflexivity|].
  change (String c x +:+ y) with (String c (x +:+ y)). simpl.
  destruct (is_ws c); [exact IH|reflexivity].
Qed.

Lemma length_append (x y : string) :
  String.length (x +:+ y) = String.length x + String.length y.
Proof.
  induction x as [|c x IH]; [reflexivity|].
  rewrite append_string_l. simpl. rewrite IH. reflexivity.
Qed.

Lemma append_assoc (x y z : string) : x +:+ (y +:+ z) = (x +:+ y) +:+ z.
Proof.
  induction x as [|c x IH]; [reflexivity|].
  rewrite !append_string_l, IH. reflexivity.
Qed.

Lemma para_text_app (p q : paragraph) :
  para_text (p ++ q) = para_text p +:+ para_text q.
Proof.
  induction p as [|a p IH]; [reflexivity|].
  change (para_text ((a :: p) ++ q)) with (run_text a +:+ para_text (p ++ q)).
  change (para_text (a :: p)) with (run_text a +:+ para_text p).
  rewrite IH. apply append_assoc.
Qed.

(** The right-stripped tail "[COMMENT]..." keeps its nine characters. *)
Lemma rstrip_comment_tail (z : string) :
  rstrip ("[COMMENT]" +:+ z) <> EmptyString /\
  9 <= String.length (rstrip ("[COMMENT]" +:+ z)).
Proof.
  rewrite rstrip_app. destruct (rstrip z) as [|d r].
  - split; [discriminate|simpl; lia].
  - rewrite length_append. split; [discriminate|simpl; lia].
Qed.

(** A paragraph to which the inline fallback note has been appended is
    substantive, whatever it contained before. *)
Lemma fallback_substantive (p : paragraph) (note : string) :
  substantive (p ++ [mk_run (" [COMMENT] " +:+ note) true]) = true.
Proof.
  unfold substantive. rewrite para_text_app.
  set (z := String " " (note +:+ EmptyString)).
  change (para_text [mk_run (" [COMMENT] " +:+ note) true])
    with (String " " ("[COMMENT]" +:+ z)).
  assert (Hl : 9 <= String.length (strip (para_text p +:+ String " " ("[COMMENT]" +:+ z)))).
  { unfold strip. rewrite lstrip_app.
    destruct (rstrip_comment_tail z) as [Hne H9].
    destruct (lstrip (para_text p)) as [|c w] eqn:E.
    - simpl lstrip. exact H9.
    - rewrite rstrip_app_nonempty.
      + rewrite length_append, rstrip_cons_nonempty by exact Hne.
        change (String.length (String " " (rstrip ("[COMMENT]" +:+ z))))
          with (S (String.length (rstrip ("[COMMENT]" +:+ z)))).
        lia.
      + rewrite rstrip_cons_nonempty by exact Hne. discriminate. }
  destruct (para_text p +:+ String " " ("[COMMENT]" +:+ z)) eqn:E.
  - simpl in Hl. lia.
  - simpl. apply Nat.ltb_lt. lia.
Qed.

Lemma find_target_some (ps : list paragraph) (i j : nat) :
  find_target ps i = Some j ->
  i <= j /\ exists p, ps !! (j - i) = Some p /\ substantive p = true /\
    forall k q, k < j - i -> ps !! k = Some q -> substantive q = false.
Proof.
  revert i. induction ps as [|q0 ps IH]; intros i H; [discriminate|].
  simpl in H. destruct (substantive q0) eqn:Eq.
  - injection H as <-. split; [lia|]. exists q0.
    rewrite Nat.sub_diag. split; [reflexivity|split; [exact Eq|]]. intros k q Hk. lia.
  - destruct (IH (S i) H) as (Hle & p & Hp & Hs & Hbefore).
    split; [lia|]. exists p.
    replace (j - i) with (S (j - S i)) by lia.
    split; [exact Hp|split; [exact Hs|]].
    intros [|k] q Hk Hq.
    + injection Hq as <-. exact Eq.
    + apply (Hbefore k q); [lia|exact Hq].
Qed.

Lemma find_target_none (ps : list paragraph) (i : nat) :
  find_target ps i = None -> forall k q, ps !! k = Some q -> substantive q = false.
Proof.
  revert i. induction ps as [|q0 ps IH]; intros i H k q Hq; [discriminate|].
  simpl in H. destruct (substantive q0) eqn:Eq; [discriminate|].
  destruct k as [|k].
  - injection Hq as <-. exact Eq.
  - exact (IH (S i) H k q Hq).
Qed.

Lemma find_target_insert (ps : list paragraph) (i t : nat) (p' : paragraph) :
  find_target ps i = Some (i + t) -> substantive p' = true ->
  find_target (<[t := p']> ps) i = Some (i + t).
Proof.
  revert i t. induction ps as [|q0 ps IH]; intros i t H Hs; [discriminate|].
  simpl in H. destruct (substantive q0) eqn:Eq.
  - injection H as Ht. assert (t = 0) as -> by lia. simpl. rewrite Hs. f_equal. lia.
  - destruct t as [|t].
    + apply find_target_some in H as [Hle _]. lia.
    + simpl. rewrite Eq. replace (i + S t) with (S i + t) by lia.
      apply IH; [replace (S i + t) with (i + S t) by lia; exact H|exact Hs].
Qed.

(** The anchor does not move when a comment is added at it. *)
Lemma target_idx_add_comment (d : docx) (note : string) (ok : bool) :
  target_idx (fst (add_comment_at_paragraph d (target_idx d) note ok)) = target_idx d.
Proof.
  unfold add_comment_at_paragraph.
  destruct (paragraphs d !! target_idx d) as [p|] eqn:Hp; [|reflexivity].
  destruct ok; [reflexivity|]. simpl.
  pose proof (fallback_substantive p note) as Hs.
  unfold target_idx in *. simpl.
  destruct (find_target (paragraphs d) 0) as [n|] eqn:Ef; simpl in *.
  - rewrite (find_target_insert (paragraphs d) 0 n); [reflexivity|exact Ef|exact Hs].
  - destruct (paragraphs d) as [|q rest]; [discriminate|].
    simpl. rewrite Hs. reflexivity.
Qed.

Lemma target_idx_first (d : docx) : first_substantive (paragraphs d) (target_idx d).
Proof.
  unfold target_idx. destruct (find_target (paragraphs d) 0) as [n|] eqn:E; simpl.
  - left. apply find_target_some in E as (_ & p & Hp & Hs & Hb).
    rewrite Nat.sub_0_r in Hp, Hb. exists p. auto.
  - right. split; [reflexivity|]. apply (find_target_none _ 0 E).
Qed.

Lemma insert_loop_anchors (ok : nat -> bool) (i : nat) (d : docx) (issues : list issue) :
  map fst (snd (insert_loop ok i d issues)) = repeat (target_idx d) (length issues).
Proof.
  revert i d. induction issues as [|it issues IH]; intros i d; [reflexivity|].
  simpl. pose proof (target_idx_add_comment d (note_of it) (ok i)) as Ht.
  destruct (add_comment_at_paragraph d (target_idx d) (note_of it) (ok i)) as [d1 o].
  simpl in Ht. destruct (insert_loop ok (S i) d1 issues) as [d2 tr] eqn:E.
  simpl. f_equal. rewrite <- Ht, <- (IH (S i) d1), E. reflexivity.
Qed.

(** C8 (as amended): every issue's comment is anchored at the paragraph
    found by a fresh search, the first whose stripped text is longer than
    3 characters (index 0 when there is none), and all issues of a run
    anchor at that same paragraph of the original document. *)
Theorem anchors_first_substantive (ok : nat -> bool) (d : docx) (issues : list issue) :
  map fst (snd (insert_comments ok d issues)) = repeat (target_idx d) (length issues) /\
  first_substantive (paragraphs d) (target_idx d).
Proof. split; [apply insert_loop_anchors|apply target_idx_first]. Qed.

Lemma target_in_range (d : docx) :
  paragraphs d <> [] -> exists p, paragraphs d !! target_idx d = Some p.
Proof.
  intros Hne. destruct (target_idx_first d) as [(p & Hp & _)|(H0 & _)].
  - exists p. exact Hp.
  - rewrite H0. destruct (paragraphs d) as [|p ps]; [congruence|]. exists p. reflexivity.
Qed.

Lemma add_comment_in_range (d : docx) (note : string) (b : bool) (p : paragraph) :
  paragraphs d !! target_idx d = Some p ->
  add_comment_at_paragraph d (target_idx d) note b =
  if b then (mk_docx (paragraphs d) (comments d ++ [mk_comment (target_idx d) note]), Structural)
  else (mk_docx (<[target_idx d := p ++ [mk_run (" [COMMENT] " +:+ note) true]]> (paragraphs d))
          (comments d), Fallback).
Proof. intros Hp. unfold add_comment_at_paragraph. rewrite Hp. destruct b; reflexivity. Qed.

Lemma insert_loop_outcomes (ok : nat -> bool) (i : nat) (d : docx) (issues : list issue) :
  paragraphs d <> [] ->
  let R := insert_loop ok i d issues in
  map snd (snd R) = map (fun k => if ok k then Structural else Fallback) (seq i (length issues)) /\
  length (paragraphs (fst R)) = length (paragraphs d) /\
  length (comments (fst R)) = length (comments d) + length (List.filter ok (seq i (length issues))).
Proof.
  revert i d. induction issues as [|it issues IH]; intros i d Hne R.
  - simpl. split; [reflexivity|split; [reflexivity|lia]].
  - unfold R. simpl.
    destruct (target_in_range d Hne) as [p Hp].
    rewrite (add_comment_in_range d (note_of it) (ok i) p Hp).
    destruct (ok i) eqn:Eo.
    + set (d1 := mk_docx (paragraphs d) (comments d ++ [mk_comment (target_idx d) (note_of it)])).
      destruct (IH (S i) d1 Hne) as (H1 & H2 & H3).
      destruct (insert_loop ok (S i) d1 issues) as [d2 tr]. simpl in *.
      rewrite H1. split; [reflexivity|split; [exact H2|]].
      rewrite H3, length_app. simpl. lia.
    + set (d1 := mk_docx (<[target_idx d := p ++ [mk_run (" [COMMENT] " +:+ note_of it) true]]>
                            (paragraphs d)) (comments d)).
      assert (Hne1 : paragraphs d1 <> []).
      { unfold d1. simpl. intros Hnil. apply Hne. apply (f_equal length) in Hnil.
        rewrite length_insert in Hnil. apply length_zero_iff_nil. exact Hnil. }
      destruct (IH (S i) d1 Hne1) as (H1 & H2 & H3).
      destruct (insert_loop ok (S i) d1 issues) as [d2 tr]. simpl in *.
      rewrite H1. split; [reflexivity|split].
      * rewrite H2, length_insert. reflexivity.
      * rewrite H3. reflexivity.
Qed.

(** On a document without paragraphs every call returns early. *)
Lemma insert_loop_no_paragraph (ok : nat -> bool) (i : nat) (d : docx) (issues : list issue) :
  paragraphs d = [] -> insert_loop ok i d issues = (d, map (fun _ => (0, NotInserted)) issues).
Proof.
  intros Hnil. revert i. induction issues as [|it issues IH]; intros i; [reflexivity|].
  cbn [insert_loop]. unfold add_comment_at_paragraph.
  assert (Ht : target_idx d = 0) by (unfold target_idx; rewrite Hnil; reflexivity).
  rewrite Ht, Hnil. cbn [lookup list_lookup]. rewrite IH. reflexivity.
Qed.

(** The final document of the loop: the anchor paragraph extended by the
    inline notes of the failing issues, the comments part by the structural
    comments of the others. *)
Lemma insert_loop_final (ok : nat -> bool) (i : nat) (d : docx) (issues : list issue)
    (p : paragraph) :
  paragraphs d !! target_idx d = Some p ->
  let d' := fst (insert_loop ok i d issues) in
  paragraphs d' = <[target_idx d := p ++ fallback_runs ok i issues]> (paragraphs d) /\
  comments d' = comments d ++ structural_comments ok i (target_idx d) issues.
Proof.
  revert i d p. induction issues as [|it issues IH]; intros i d p Hp d'.
  - unfold d'. cbn. rewrite !app_nil_r. split; [|reflexivity].
    symmetry. apply list_insert_id. exact Hp.
  - unfold d'. cbn [insert_loop fallback_runs structural_comments].
    pose proof (target_idx_add_comment d (note_of it) (ok i)) as Ht.
    rewrite (add_comment_in_range d (note_of it) (ok i) p Hp) in Ht |- *.
    destruct (ok i) eqn:Eo.
    + set (d1 := mk_docx (paragraphs d) (comments d ++ [mk_comment (target_idx d) (note_of it)])).
      simpl in Ht. fold d1 in Ht.
      assert (Hp1 : paragraphs d1 !! target_idx d1 = Some p) by (rewrite Ht; exact Hp).
      destruct (IH (S i) d1 p Hp1) as [H1 H2].
      destruct (insert_loop ok (S i) d1 issues) as [d2 tr]. simpl in *.
      rewrite H1, H2, Ht. split; [reflexivity|]. rewrite <- app_assoc. reflexivity.
    + set (nr := mk_run (" [COMMENT] " +:+ note_of it) true).
      set (d1 := mk_docx (<[target_idx d := p ++ [nr]]> (paragraphs d)) (comments d)).
      simpl in Ht. fold nr d1 in Ht.
      assert (Hlt : target_idx d < length (paragraphs d)) by (apply lookup_lt_is_Some; eauto).
      assert (Hp1 : paragraphs d1 !! target_idx d1 = Some (p ++ [nr])).
      { rewrite Ht. unfold d1. simpl. apply list_lookup_insert_eq. exact Hlt. }
      destruct (IH (S i) d1 (p ++ [nr]) Hp1) as [H1 H2].
      destruct (insert_loop ok (S i) d1 issues) as [d2 tr]. simpl in *.
      rewrite H1, H2, Ht. unfold d1. simpl. split; [|reflexivity].
      rewrite list_insert_insert_eq, <- app_assoc. reflexivity.
Qed.

(** C9 (as amended): on a document with at least one paragraph, each issue
    gets exactly one comment: a structural comment anchored at the anchor
    paragraph when the OOXML insertion completes, otherwise the highlighted
    inline note " [COMMENT] ..." appended to the anchor paragraph.  The
    reviewed copy is the original with the anchor paragraph extended by the
    inline notes of the failing issues and the comments part by the
    structural comments of the others, both in issue order.  On a document
    without paragraphs nothing is inserted for any issue. *)
Theorem comment_per_issue (ok : nat -> bool) (d : docx) (issues : list issue) :
  let R := insert_comments ok d issues in
  (paragraphs d = [] -> R = (d, map (fun _ => (0, NotInserted)) issues)) /\
  (paragraphs d <> [] ->
   map snd (snd R) = map (fun k => if ok k then Structural else Fallback) (seq 0 (length issues)) /\
   exists p, paragraphs d !! target_idx d = Some p /\
     paragraphs (fst R) = <[target_idx d := p ++ fallback_runs ok 0 issues]> (paragraphs d) /\
     comments (fst R) = comments d ++ structural_comments ok 0 (target_idx d) issues).
Proof.
  intros R. split.
  - apply insert_loop_no_paragraph.
  - intros Hne.
    destruct (insert_loop_outcomes ok 0 d issues Hne) as (H1 & _ & _).
    split; [exact H1|].
    destruct (target_in_range d Hne) as [p Hp].
    exists p. split; [exact Hp|]. apply (insert_loop_final ok 0 d issues p Hp).
Qed.

(* ------------------------------------------------------------------ *)
(** ** Concrete runs *)

(** C2 fails: a retriever whose top hit has an empty [source] yields an
    empty citation. *)
Lemma citation_empty_source_cex :
  map issue_citation (find_red_flags "" empty_source_hits "Unknown") = [EmptyString].
Proof. vm_compute. reflexivity. Qed.

Lemma citations_of_issues_witness :
  (forall q h rest s, source_hits q = h :: rest -> metadata h !! "source" = Some s ->
     s <> EmptyString) /\
  Forall (fun i => issue_citation i <> EmptyString)
    (find_red_flags "dubai courts" source_hits "Employment Contract") /\
  map issue_citation (find_red_flags "dubai courts" source_hits "Employment Contract") =
  ["data/reference/employment.docx"; "data/reference/employment.docx"].
Proof.
  assert (H : forall q h rest s, source_hits q = h :: rest ->
                metadata h !! "source" = Some s -> s <> EmptyString).
  { intros q h rest s E Hs. injection E as <- _. vm_compute in Hs.
    injection Hs as <-. discriminate. }
  split; [exact H|split].
  - exact (proj2 (citations_of_issues "dubai courts" source_hits "Employment Contract") H).
  - vm_compute. reflexivity.
Defined.

(** C3 fails: a MoA.docx mentioning the Articles of Association is
    classified as Articles, and six documents are missing. *)
Lemma scenario_A_cex :
  rep_missing_documents
    (analyze_documents
       [mk_upload "AoA.docx" [];
        mk_upload "MoA.docx" ["This Memorandum is read with the Articles of Association."]]
       no_hits (detect_process_from_docs ["AoA.docx"; "MoA.docx"])) =
  ["Memorandum of Association"; "Board Resolution"; "Shareholder Resolution";
   "UBO Declaration Form"; "Register of Members and Directors";
   "Incorporation Application Form"].
Proof. vm_compute. reflexivity. Qed.

(** C5 fails: with the third weak phrase also present there are three
    [Medium] issues. *)
Lemma weak_language_three_cex :
  let t := "may at its discretion, best efforts and commercially reasonable efforts" in
  contains "may at its discretion" (lower t) = true /\
  contains "best efforts" (lower t) = true /\
  length (List.filter is_medium (find_red_flags t no_hits "Board Resolution")) = 3.
Proof. vm_compute. split; [reflexivity|split; reflexivity]. Qed.

Lemma weak_language_issues_witness :
  let t := "The Board may at its discretion use best efforts." in
  (contains "may at its discretion" (lower t) = true /\ contains "best efforts" (lower t) = true) /\
  length (List.filter is_medium (find_red_flags t no_hits "Board Resolution")) = 2.
Proof.
  intros t.
  assert (H1 : contains "may at its discretion" (lower t) = true) by (vm_compute; reflexivity).
  assert (H2 : contains "best efforts" (lower t) = true) by (vm_compute; reflexivity).
  split; [split; [exact H1|exact H2]|].
  destruct (weak_language_issues t no_hits "Board Resolution") as (_ & _ & H).
  rewrite (H H1 H2). vm_compute. reflexivity.
Defined.

Lemma red_flags_order_witness :
  existsb (fun k => contains k (lower "Governed by Dubai Courts")) MISSING_SIGN_KEYS = false /\
  List.filter is_signature (find_red_flags "Governed by Dubai Courts" no_hits "Unknown") =
    [sign_issue no_hits "Unknown"].
Proof.
  assert (H : existsb (fun k => contains k (lower "Governed by Dubai Courts")) MISSING_SIGN_KEYS
              = false) by (vm_compute; reflexivity).
  split; [exact H|].
  destruct (red_flags_order "Governed by Dubai Courts" no_hits "Unknown") as (_ & _ & H3).
  exact (proj1 (H3 H)).
Defined.

Lemma detect_process_order_independent_witness :
  Permutation ["MoA.docx"; "Employment_Contract.docx"] ["Employment_Contract.docx"; "MoA.docx"] /\
  detect_process_from_docs ["MoA.docx"; "Employment_Contract.docx"] =
  detect_process_from_docs ["Employment_Contract.docx"; "MoA.docx"].
Proof.
  assert (Hp : Permutation ["MoA.docx"; "Employment_Contract.docx"]
                           ["Employment_Contract.docx"; "MoA.docx"])
    by (apply (bool_decide_unpack _); vm_compute; reflexivity).
  split; [exact Hp|].
  exact (proj1 (detect_process_order_independent _ _ Hp)).
Defined.

(** C8 fails: the comment is anchored at "a  b", whose stripped text has
    4 characters but only 2 of them non-whitespace; the first paragraph
    with more than 3 non-whitespace characters is "abcd". *)
Lemma anchor_stripped_length_cex :
  map fst (snd (insert_comments (fun _ => true) spaced_doc [sign_issue no_hits "Unknown"])) = [0] /\
  nonws_count (para_text [mk_run "a  b" false]) = 2 /\
  nonws_count (para_text [mk_run "abcd" false]) = 4 /\
  paragraphs spaced_doc = [[mk_run "a  b" false]; [mk_run "abcd" false]].
Proof. vm_compute. repeat split. Qed.

(** C9 fails: on a document without paragraphs [add_comment_at_paragraph]
    returns early and nothing is inserted for the issue. *)
Lemma no_paragraph_cex :
  insert_comments (fun _ => false) no_paragraph_doc (find_red_flags "" no_hits "Unknown") =
  (no_paragraph_doc, [(0, NotInserted)]).
Proof. vm_compute. reflexivity. Qed.

Lemma comment_per_issue_witness :
  paragraphs spaced_doc <> [] /\
  map snd (snd (insert_comments (fun k => Nat.eqb k 1) spaced_doc
                  (find_red_flags "best efforts" no_hits "Unknown"))) =
  [Fallback; Structural] /\
  paragraphs (fst (insert_comments (fun k => Nat.eqb k 1) spaced_doc
                     (find_red_flags "best efforts" no_hits "Unknown"))) =
  [[mk_run "a  b" false;
    mk_run (" [COMMENT] " +:+ note_of (weak_issue no_hits "Unknown" "best efforts")) true];
   [mk_run "abcd" false]] /\
  comments (fst (insert_comments (fun k => Nat.eqb k 1) spaced_doc
                   (find_red_flags "best efforts" no_hits "Unknown"))) =
  [mk_comment 0 (note_of (sign_issue no_hits "Unknown"))].
Proof.
  assert (Hne : paragraphs spaced_doc <> []) by discriminate.
  destruct (proj2 (comment_per_issue (fun k => Nat.eqb k 1) spaced_doc
                     (find_red_flags "best efforts" no_hits "Unknown")) Hne)
    as (H1 & p & Hp & H2 & H3).
  split; [exact Hne|].
  rewrite H1, H2, H3.
  vm_compute in Hp. injection Hp as <-.
  split; [vm_compute; reflexivity|split; vm_compute; reflexivity].
Defined.

Lemma analysis_sees_first_20000_witness :
  join NEWLINE [pad MAX_CHARS +:+ "dubai courts"] = pad MAX_CHARS +:+ "dubai courts" /\
  String.length (pad MAX_CHARS) = MAX_CHARS /\
  info_text (make_info (mk_upload "contract.docx" [pad MAX_CHARS +:+ "dubai courts"])) =
  pad MAX_CHARS.
Proof.
  assert (H1 : join NEWLINE [pad MAX_CHARS +:+ "dubai courts"] = pad MAX_CHARS +:+ "dubai courts")
    by reflexivity.
  assert (H2 : String.length (pad MAX_CHARS) = MAX_CHARS)
    by (apply Nat.eqb_eq; vm_compute; reflexivity).
  split; [exact H1|split; [exact H2|]].
  exact (proj1 (analysis_sees_first_20000 "contract.docx" _ no_hits "Company Incorporation"
                  _ _ H1 H2)).
Defined.

(* ================================================================== *)
(** * Further properties of the code *)

(* ------------------------------------------------------------------ *)
(** ** Names of the cached reference files *)

Module NameFacts.

Lemma safe_char_replace (c : ascii) : safe_char (if safe_char c then c else "_"%char) = true.
Proof. destruct (safe_char c) eqn:E; [exact E|reflexivity]. Qed.

Lemma sanitize_all_safe (s : string) : all_safe (sanitize s) = true.
Proof. induction s as [|c s IH]; [reflexivity|]. simpl. rewrite safe_char_replace. exact IH. Qed.

Lemma sanitize_length (s : string) : String.length (sanitize s) = String.length s.
Proof. induction s as [|c s IH]; simpl; congruence. Qed.

Lemma sanitize_id (s : string) : all_safe s = true -> sanitize s = s.
Proof.
  induction s as [|c s IH]; [reflexivity|]. simpl. intros H.
  apply andb_prop in H as [Hc Hs]. rewrite Hc, IH by exact Hs. reflexivity.
Qed.

Lemma sanitize_app (x y : string) : sanitize (x +:+ y) = sanitize x +:+ sanitize y.
Proof. induction x as [|c x IH]; [reflexivity|]. simpl. rewrite IH. reflexivity. Qed.

Lemma lower_app (x y : string) : lower (x +:+ y) = lower x +:+ lower y.
Proof. induction x as [|c x IH]; [reflexivity|]. simpl. rewrite IH. reflexivity. Qed.

Lemma lower_char_sanitize (c : ascii) :
  lower_char (if safe_char c then c else "_"%char) =
  if safe_char (lower_char c) then lower_char c else "_"%char.
Proof. destruct c as [[] [] [] [] [] [] [] []]; vm_compute; reflexivity. Qed.

Lemma lower_sanitize (s : string) : lower (sanitize s) = sanitize (lower s).
Proof.
  induction s as [|c s IH]; [reflexivity|]. simpl. rewrite IH, lower_char_sanitize. reflexivity.
Qed.

Lemma ends_with_app (suf x : string) : ends_with suf (x +:+ suf) = true.
Proof.
  induction x as [|c x IH].
  - change (EmptyString +:+ suf) with suf. destruct suf as [|a suf]; [reflexivity|].
    cbn [ends_with]. rewrite String.eqb_refl. reflexivity.
  - change (String c x +:+ suf) with (String c (x +:+ suf)). simpl. rewrite IH, orb_true_r.
    reflexivity.
Qed.

Lemma ends_with_sanitize (suf s : string) :
  all_safe suf = true -> ends_with suf s = true -> ends_with suf (sanitize s) = true.
Proof.
  intros Hsafe. induction s as [|c s IH]; intros H.
  - exact H.
  - cbn [ends_with sanitize] in H |- *. apply orb_prop in H as [H|H].
    + apply String.eqb_eq in H. rewrite <- H in Hsafe |- *.
      change (String (if safe_char c then c else "_"%char) (sanitize s)) with (sanitize (String c s)).
      rewrite (sanitize_id _ Hsafe), String.eqb_refl. reflexivity.
    + rewrite IH by exact H. apply orb_true_r.
Qed.

Lemma try_lengths_nonempty (s : string) (k : nat) (m : string) :
  try_lengths s k = Some m -> m <> EmptyString.
Proof.
  induction k as [|k IH]; intros H; cbn [try_lengths] in H; [discriminate|].
  destruct (prefixb ".pdf" (lower (sdrop (S k) s))) eqn:E1.
  - destruct s; [discriminate|]. injection H as <-. discriminate.
  - destruct (prefixb ".docx" (lower (sdrop (S k) s))) eqn:E2; [|exact (IH H)].
    destruct s; [discriminate|]. injection H as <-. discriminate.
Qed.

Lemma regex_search_nonempty (s m : string) : regex_search s = Some m -> m <> EmptyString.
Proof.
  induction s as [|c s IH]; intros H; cbn [regex_search] in H; unfold match_at in H.
  - destruct (try_lengths EmptyString (nonslash_run EmptyString)) eqn:E; [|discriminate].
    injection H as <-. exact (try_lengths_nonempty _ _ _ E).
  - destruct (try_lengths (String c s) (nonslash_run (String c s))) eqn:E.
    + injection H as <-. exact (try_lengths_nonempty _ _ _ E).
    + exact (IH H).
Qed.

End NameFacts.
Import NameFacts.

(** [_guess_filename_from_url] always returns a non-empty name made only of
    the characters [A-Za-z0-9._+-] (so without any ["/"]), whatever the URL
    and its path. *)
Theorem guess_filename_safe_nonempty (url path : string) :
  all_safe (guess_filename url path) = true /\ guess_filename url path <> EmptyString.
Proof.
  split; [apply sanitize_all_safe|].
  unfold guess_filename.
  set (base := match regex_search path with
               | Some m => m
               | None => if String.eqb (path_name path) EmptyString then "adgm_ref" else path_name path
               end).
  assert (Hb : base <> EmptyString).
  { unfold base. destruct (regex_search path) eqn:E; [exact (regex_search_nonempty _ _ E)|].
    destruct (String.eqb (path_name path) EmptyString) eqn:En; [discriminate|].
    intros H. rewrite H in En. discriminate. }
  intros H. apply (f_equal String.length) in H. rewrite sanitize_length in H.
  destruct base as [|c b]; [congruence|].
  destruct (negb _); [destruct (contains ".pdf" _); [|destruct (contains ".docx" _)]|];
    discriminate.
Qed.

(** When the lower-cased URL mentions [".pdf"] or [".docx"], the guessed
    file name ends, case-insensitively, with [".pdf"] or [".docx"]. *)
Theorem guess_filename_extension (url path : string) :
  contains ".pdf" (lower url) = true \/ contains ".docx" (lower url) = true ->
  ends_with ".pdf" (lower (guess_filename url path)) = true \/
  ends_with ".docx" (lower (guess_filename url path)) = true.
Proof.
  intros Hurl. unfold guess_filename.
  set (base := match regex_search path with
               | Some m => m
               | None => if String.eqb (path_name path) EmptyString then "adgm_ref" else path_name path
               end).
  rewrite !lower_sanitize.
  destruct (ends_with ".pdf" (lower base) || ends_with ".docx" (lower base)) eqn:E; simpl negb.
  - apply orb_prop in E as [E|E]; [left|right]; apply ends_with_sanitize; auto.
  - destruct (contains ".pdf" (lower url)) eqn:Ep.
    + left. rewrite lower_app, sanitize_app. apply ends_with_app.
    + destruct Hurl as [H|H]; [discriminate|]. rewrite H.
      right. rewrite lower_app, sanitize_app. apply ends_with_app.
Qed.

Lemma guess_filename_extension_witness :
  (contains ".pdf" (lower "http://x/get?f=Report.PDF") = true \/
   contains ".docx" (lower "http://x/get?f=Report.PDF") = true) /\
  ends_with ".pdf" (lower (guess_filename "http://x/get?f=Report.PDF" "/get")) = true.
Proof.
  assert (H : contains ".pdf" (lower "http://x/get?f=Report.PDF") = true \/
              contains ".docx" (lower "http://x/get?f=Report.PDF") = true)
    by (left; vm_compute; reflexivity).
  split; [exact H|].
  destruct (guess_filename_extension "http://x/get?f=Report.PDF" "/get" H) as [E|E];
    [exact E|vm_compute in E; discriminate].
Defined.

(* ------------------------------------------------------------------ *)
(** ** Download with retries and download cache *)

Module DownloadFacts.

(** The loop writes no file but [dest], and a normal return leaves a
    non-empty [dest]. *)
Lemma dl_loop_frame (net : nat -> attempt) (dest : string) (fuel : nat) :
  forall i last fs p, p <> dest ->
  fst (fst (dl_loop net dest i fuel last fs)) !! p = fs !! p.
Proof.
  induction fuel as [|fuel IH]; intros i last fs p Hp; [reflexivity|].
  cbn [dl_loop]. destruct (net i) as [n|e w].
  - destruct (n =? 0).
    + pose proof (IH (S i) (Some (OSErr ZERO_BYTES)) (<[dest:=n]> fs) p Hp) as H.
      destruct (dl_loop net dest (S i) fuel _ _) as [[fs2 sl] r].
      cbn [fst snd] in H |- *. rewrite H, lookup_insert_ne by congruence. reflexivity.
    + simpl. rewrite lookup_insert_ne by congruence. reflexivity.
  - set (fs1 := match w with Some k => <[dest:=k]> fs | None => fs end).
    assert (H1 : fs1 !! p = fs !! p).
    { unfold fs1. destruct w; [rewrite lookup_insert_ne by congruence|]; reflexivity. }
    destruct (caught e).
    + pose proof (IH (S i) (Some e) fs1 p Hp) as H.
      destruct (dl_loop net dest (S i) fuel _ fs1) as [[fs2 sl] r].
      cbn [fst snd] in H |- *. rewrite H. exact H1.
    + simpl. exact H1.
Qed.

Lemma dl_loop_ok (net : nat -> attempt) (dest : string) (fuel : nat) :
  forall i last fs, snd (dl_loop net dest i fuel last fs) = None ->
  exists n, fst (fst (dl_loop net dest i fuel last fs)) !! dest = Some (S n).
Proof.
  induction fuel as [|fuel IH]; intros i last fs; [discriminate|].
  cbn [dl_loop]. destruct (net i) as [n|e w].
  - destruct (n =? 0) eqn:En.
    + pose proof (IH (S i) (Some (OSErr ZERO_BYTES)) (<[dest:=n]> fs)) as H.
      destruct (dl_loop net dest (S i) fuel _ _) as [[fs2 sl] r]. exact H.
    + intros _. simpl. apply Nat.eqb_neq in En. exists (pred n).
      rewrite lookup_insert_eq. f_equal. lia.
  - destruct (caught e).
    + pose proof (IH (S i) (Some e) (match w with Some k => <[dest:=k]> fs | None => fs end)) as H.
      destruct (dl_loop net dest (S i) fuel _ _) as [[fs2 sl] r]. exact H.
    + discriminate.
Qed.

Lemma dl_loop_succeeds_iff (net : nat -> attempt) (dest : string) (fuel : nat) :
  forall i last fs,
  snd (dl_loop net dest i fuel last fs) = None <->
  exists j, i <= j < i + fuel /\ (exists n, net j = Fetched (S n)) /\
    forall m, i <= m < j -> retryable (net m) = true.
Proof.
  induction fuel as [|fuel IH]; intros i last fs.
  - split; [discriminate|]. intros (j & Hj & _). lia.
  - cbn [dl_loop]. destruct (net i) as [n|e w] eqn:Ei.
    + destruct (n =? 0) eqn:En.
      * apply Nat.eqb_eq in En. subst n.
        pose proof (IH (S i) (Some (OSErr ZERO_BYTES)) (<[dest:=0]> fs)) as H.
        destruct (dl_loop net dest (S i) fuel _ _) as [[fs2 sl] r]. simpl in *.
        rewrite H. split.
        -- intros (j & Hj & Hn & Hm). exists j. split; [lia|split; [exact Hn|]].
           intros m Hm'. destruct (Nat.eq_dec m i) as [->|Hne]; [rewrite Ei; reflexivity|].
           apply Hm. lia.
        -- intros (j & Hj & (n & Hn) & Hm). destruct (Nat.eq_dec j i) as [->|Hne].
           ++ congruence.
           ++ exists j. split; [lia|split; [eauto|]]. intros m Hm'. apply Hm. lia.
      * simpl. split; [|reflexivity]. intros _. exists i. split; [lia|split].
        -- exists (pred n). rewrite Ei. apply Nat.eqb_neq in En. f_equal. lia.
        -- intros m Hm. lia.
    + destruct (caught e) eqn:Ec.
      * pose proof (IH (S i) (Some e) (match w with Some k => <[dest:=k]> fs | None => fs end)) as H.
        destruct (dl_loop net dest (S i) fuel _ _) as [[fs2 sl] r]. simpl in *.
        rewrite H. split.
        -- intros (j & Hj & Hn & Hm). exists j. split; [lia|split; [exact Hn|]].
           intros m Hm'. destruct (Nat.eq_dec m i) as [->|Hne]; [rewrite Ei; exact Ec|].
           apply Hm. lia.
        -- intros (j & Hj & (n & Hn) & Hm). destruct (Nat.eq_dec j i) as [->|Hne].
           ++ congruence.
           ++ exists j. split; [lia|split; [eauto|]]. intros m Hm'. apply Hm. lia.
      * simpl. split; [discriminate|]. intros (j & Hj & (n & Hn) & Hm).
        destruct (Nat.eq_dec j i) as [->|Hne]; [congruence|].
        specialize (Hm i ltac:(lia)). rewrite Ei in Hm. simpl in Hm. congruence.
Qed.

Lemma dl_loop_all_fail (net : nat -> attempt) (dest : string) (fuel : nat) :
  forall i last fs,
  (forall j, i <= j < i + fuel -> retryable (net j) = true) ->
  snd (fst (dl_loop net dest i fuel last fs)) = seq i fuel /\
  snd (dl_loop net dest i fuel last fs) =
    Some (match fuel with 0 => default TypeErrNone last | S k => err_of (net (i + k)) end).
Proof.
  induction fuel as [|fuel IH]; intros i last fs Hall; [split; reflexivity|].
  assert (Hi : retryable (net i) = true) by (apply Hall; lia).
  assert (Hrest : forall j, S i <= j < S i + fuel -> retryable (net j) = true)
    by (intros j Hj; apply Hall; lia).
  cbn [dl_loop]. destruct (net i) as [n|e w] eqn:Ei; simpl in Hi.
  - rewrite Hi.
    destruct (IH (S i) (Some (OSErr ZERO_BYTES)) (<[dest:=n]> fs) Hrest) as [H1 H2].
    destruct (dl_loop net dest (S i) fuel _ _) as [[fs2 sl] r]. simpl in *.
    rewrite H1, H2. split; [reflexivity|].
    destruct fuel as [|k]; simpl.
    + rewrite Nat.add_0_r, Ei. reflexivity.
    + rewrite Nat.add_succ_r. reflexivity.
  - rewrite Hi.
    destruct (IH (S i) (Some e) (match w with Some k => <[dest:=k]> fs | None => fs end) Hrest)
      as [H1 H2].
    destruct (dl_loop net dest (S i) fuel _ _) as [[fs2 sl] r]. simpl in *.
    rewrite H1, H2. split; [reflexivity|].
    destruct fuel as [|k]; simpl.
    + rewrite Nat.add_0_r, Ei. reflexivity.
    + rewrite Nat.add_succ_r. reflexivity.
Qed.

Lemma nonempty_needs (fs : store) (p : string) :
  nonempty_file fs p = negb (needs_download fs p).
Proof.
  unfold nonempty_file, needs_download. destruct (fs !! p) as [[|n]|]; reflexivity.
Qed.

(** Files holding data are kept as they are by the download loop. *)
Lemma dl_urls_keeps (urlpath : string -> string) (net : nat -> nat -> attempt) (outdir : string)
    (urls : list string) :
  forall k fs p n, fs !! p = Some (S n) ->
  fst (fst (dl_urls urlpath net outdir k urls fs)) !! p = Some (S n).
Proof.
  induction urls as [|u urls IH]; intros k fs p n Hp; [exact Hp|].
  cbn [dl_urls]. set (dest := dest_of urlpath outdir u).
  destruct (needs_download fs dest) eqn:Ed.
  - assert (Hne : p <> dest).
    { intros ->. unfold needs_download in Ed. rewrite Hp in Ed. discriminate. }
    pose proof (dl_loop_frame (net k) dest 3 0 None fs p Hne) as Hf.
    unfold download_with_headers.
    destruct (dl_loop (net k) dest 0 3 None fs) as [[fs1 sl] [e|]]; simpl in Hf.
    + simpl. rewrite Hf. exact Hp.
    + pose proof (IH (S k) fs1 p n ltac:(rewrite Hf; exact Hp)) as H.
      destruct (dl_urls urlpath net outdir (S k) urls fs1) as [[fs2 lg] r]. exact H.
  - pose proof (IH (S k) fs p n Hp) as H.
    destruct (dl_urls urlpath net outdir (S k) urls fs) as [[fs2 lg] r]. exact H.
Qed.

Lemma dl_urls_downloads (urlpath : string -> string) (net : nat -> nat -> attempt)
    (outdir : string) (urls : list string) :
  forall k fs u d, In (Downloading u d) (snd (fst (dl_urls urlpath net outdir k urls fs))) ->
  needs_download fs d = true.
Proof.
  induction urls as [|u0 urls IH]; intros k fs u d Hin; [destruct Hin|].
  cbn [dl_urls] in Hin. set (dest := dest_of urlpath outdir u0) in Hin.
  destruct (needs_download fs dest) eqn:Ed.
  - unfold download_with_headers in Hin.
    destruct (dl_loop (net k) dest 0 3 None fs) as [[fs1 sl] [e|]] eqn:Edl.
    + simpl in Hin. destruct Hin as [Hin|[]]. injection Hin as _ <-. exact Ed.
    + pose proof (IH (S k) fs1 u d) as H.
      destruct (dl_urls urlpath net outdir (S k) urls fs1) as [[fs2 lg] r].
      simpl in Hin. destruct Hin as [Hin|Hin].
      * injection Hin as _ <-. exact Ed.
      * specialize (H Hin). destruct (needs_download fs d) eqn:Efd; [reflexivity|].
        exfalso. unfold needs_download in Efd.
        destruct (fs !! d) as [[|n]|] eqn:Efs; try discriminate.
        assert (Hne : d <> dest).
        { intros ->. unfold needs_download in Ed. rewrite Efs in Ed. discriminate. }
        pose proof (dl_loop_frame (net k) dest 3 0 None fs d Hne) as Hf.
        rewrite Edl in Hf. simpl in Hf. unfold needs_download in H.
        rewrite Hf, Efs in H. discriminate.
  - pose proof (IH (S k) fs u d) as H.
    destruct (dl_urls urlpath net outdir (S k) urls fs) as [[fs2 lg] r].
    simpl in Hin. destruct Hin as [Hin|Hin]; [discriminate|exact (H Hin)].
Qed.

Lemma dl_urls_success (urlpath : string -> string) (net : nat -> nat -> attempt)
    (outdir : string) (urls : list string) :
  forall k fs fs' lg ps, dl_urls urlpath net outdir k urls fs = (fs', lg, inl ps) ->
  ps = map (dest_of urlpath outdir) urls /\ Forall (fun p => nonempty_file fs' p = true) ps.
Proof.
  induction urls as [|u urls IH]; intros k fs fs' lg ps H.
  - injection H as _ _ <-. split; [reflexivity|constructor].
  - cbn [dl_urls] in H. set (dest := dest_of urlpath outdir u) in H.
    destruct (needs_download fs dest) eqn:Ed.
    + unfold download_with_headers in H.
      pose proof (dl_loop_ok (net k) dest 3 0 None fs) as Hok.
      destruct (dl_loop (net k) dest 0 3 None fs) as [[fs1 sl] [e|]]; [discriminate|].
      destruct (Hok eq_refl) as [n Hn]. simpl in Hn.
      pose proof (dl_urls_keeps urlpath net outdir urls (S k) fs1 dest n Hn) as Hk.
      destruct (dl_urls urlpath net outdir (S k) urls fs1) as [[fs2 lg2] [ps2|e]] eqn:Er;
        [|discriminate].
      injection H as <- _ <-. destruct (IH (S k) fs1 fs2 lg2 ps2 Er) as [-> Hall].
      split; [reflexivity|]. constructor; [|exact Hall].
      simpl in Hk. unfold nonempty_file. rewrite Hk. reflexivity.
    + pose proof (nonempty_needs fs dest) as Hne. rewrite Ed in Hne. simpl in Hne.
      unfold nonempty_file in Hne. destruct (fs !! dest) as [[|n]|] eqn:Efs; try discriminate.
      pose proof (dl_urls_keeps urlpath net outdir urls (S k) fs dest n Efs) as Hk.
      destruct (dl_urls urlpath net outdir (S k) urls fs) as [[fs2 lg2] [ps2|e]] eqn:Er;
        [|discriminate].
      injection H as <- _ <-. destruct (IH (S k) fs fs2 lg2 ps2 Er) as [-> Hall].
      split; [reflexivity|]. constructor; [|exact Hall].
      simpl in Hk. unfold nonempty_file. rewrite Hk. reflexivity.
Qed.

End DownloadFacts.
Import DownloadFacts.

(** [_download_with_headers] returns normally iff, among the first [retries]
    attempts, one copies a non-empty body and every attempt before it failed
    with an [OSError] or an empty body; it then leaves a non-empty [dest],
    and it never writes a file other than [dest]. *)
Theorem download_with_headers_success (net : nat -> attempt) (dest : string) (retries : nat)
    (fs : store) :
  let R := download_with_headers net dest retries fs in
  (snd R = None <->
   exists j, j < retries /\ (exists n, net j = Fetched (S n)) /\
     forall m, m < j -> retryable (net m) = true) /\
  (snd R = None -> exists n, fst (fst R) !! dest = Some (S n)) /\
  (forall p, p <> dest -> fst (fst R) !! p = fs !! p).
Proof.
  unfold download_with_headers. split; [|split].
  - rewrite dl_loop_succeeds_iff. split.
    + intros (j & Hj & Hn & Hm). exists j. split; [lia|split; [exact Hn|]].
      intros m Hm'. apply Hm. lia.
    + intros (j & Hj & Hn & Hm). exists j. split; [lia|split; [exact Hn|]].
      intros m Hm'. apply Hm. lia.
  - apply dl_loop_ok.
  - intros p Hp. apply dl_loop_frame, Hp.
Qed.

Lemma download_with_headers_success_witness :
  snd (download_with_headers (fun i => if i =? 0 then Failed (OSErr "timed out") None else Fetched 7)
         "data/reference/a.pdf" 3 ∅) = None.
Proof.
  apply (proj2 (proj1 (download_with_headers_success
    (fun i => if i =? 0 then Failed (OSErr "timed out") None else Fetched 7)
    "data/reference/a.pdf" 3 ∅))).
  exists 1. split; [lia|split; [exists 6; reflexivity|]].
  intros m Hm. assert (m = 0) as -> by lia. reflexivity.
Defined.

(** When every one of the [retries] attempts fails with an [OSError] or an
    empty body, [_download_with_headers] sleeps [backoff ** i] after each
    attempt [i] and raises the error of the last attempt; with [retries = 0]
    it raises [None], a [TypeError]. *)
Theorem download_with_headers_all_fail (net : nat -> attempt) (dest : string) (retries : nat)
    (fs : store) :
  (forall j, j < retries -> retryable (net j) = true) ->
  let R := download_with_headers net dest retries fs in
  snd (fst R) = seq 0 retries /\
  snd R = Some (match retries with 0 => TypeErrNone | S k => err_of (net k) end).
Proof.
  intros Hall. unfold download_with_headers.
  destruct (dl_loop_all_fail net dest retries 0 None fs) as [H1 H2].
  - intros j Hj. apply Hall. lia.
  - split; [exact H1|]. rewrite H2. destruct retries; reflexivity.
Qed.

Lemma download_with_headers_all_fail_witness :
  (forall j, j < 3 -> retryable (Failed (OSErr "timed out") None) = true) /\
  snd (fst (download_with_headers (fun _ => Failed (OSErr "timed out") None) "x.pdf" 3 ∅)) =
  [0; 1; 2].
Proof.
  assert (H : forall j, j < 3 -> retryable ((fun _ => Failed (OSErr "timed out") None) j) = true)
    by (intros j _; reflexivity).
  split; [exact H|].
  exact (proj1 (download_with_headers_all_fail (fun _ => Failed (OSErr "timed out") None)
                  "x.pdf" 3 ∅ H)).
Defined.

(** When [_download_if_needed] returns, its result lists [outdir/name] for
    every URL, in the URLs' order, and each of these files is non-empty. *)
Theorem download_if_needed_success (urlpath : string -> string) (net : nat -> nat -> attempt)
    (outdir : string) (urls : list string) (fs fs' : store) (lg : list log_line)
    (ps : list string) :
  download_if_needed urlpath net outdir urls fs = (fs', lg, inl ps) ->
  ps = map (dest_of urlpath outdir) urls /\ Forall (fun p => nonempty_file fs' p = true) ps.
Proof. apply dl_urls_success. Qed.

Lemma download_if_needed_success_witness :
  let R := download_if_needed (fun _ => "/doc.pdf") (fun _ _ => Fetched 10) REF_DIR
             ["https://x/doc.pdf"] ∅ in
  R = (fst (fst R), snd (fst R), inl ["data/reference/doc.pdf"]) /\
  ["data/reference/doc.pdf"] =
    map (dest_of (fun _ => "/doc.pdf") REF_DIR) ["https://x/doc.pdf"].
Proof.
  intros R.
  assert (H : R = (fst (fst R), snd (fst R), inl ["data/reference/doc.pdf"])) by reflexivity.
  split; [exact H|].
  exact (proj1 (download_if_needed_success _ _ _ _ _ _ _ _ H)).
Defined.

(** [_download_if_needed] only downloads to destinations that were missing
    or empty before the call, and every non-empty file keeps its size: a
    cached reference file is never fetched again. *)
Theorem download_if_needed_keeps_cache (urlpath : string -> string)
    (net : nat -> nat -> attempt) (outdir : string) (urls : list string) (fs : store) :
  let R := download_if_needed urlpath net outdir urls fs in
  (forall u d, In (Downloading u d) (snd (fst R)) -> needs_download fs d = true) /\
  (forall p n, fs !! p = Some (S n) -> fst (fst R) !! p = Some (S n)).
Proof.
  split; [apply dl_urls_downloads|]. intros p n Hp. apply dl_urls_keeps, Hp.
Qed.

Lemma download_if_needed_keeps_cache_witness :
  let fs : store := {[ "data/reference/doc.pdf" := 5 ]} in
  snd (fst (download_if_needed (fun _ => "/doc.pdf") (fun _ _ => Fetched 10) REF_DIR
              ["https://x/doc.pdf"] fs)) = [UsingCached "data/reference/doc.pdf"] /\
  fst (fst (download_if_needed (fun _ => "/doc.pdf") (fun _ _ => Fetched 10) REF_DIR
              ["https://x/doc.pdf"] fs)) !! "data/reference/doc.pdf" = Some 5.
Proof.
  intros fs. split; [reflexivity|].
  exact (proj2 (download_if_needed_keeps_cache (fun _ => "/doc.pdf") (fun _ _ => Fetched 10)
                  REF_DIR ["https://x/doc.pdf"] fs) "data/reference/doc.pdf" 4 eq_refl).
Defined.

(* ------------------------------------------------------------------ *)
(** ** Red flags, report, extraction, checklist *)

Module ReportFacts.

Lemma take_prefix (n : nat) (s : string) : prefixb (take n s) s = true.
Proof.
  unfold take. revert n. induction s as [|c s IH]; intros [|n]; try reflexivity.
  simpl. rewrite Ascii.eqb_refl. apply IH.
Qed.

Lemma take_length (n : nat) (s : string) :
  String.length (take n s) = Nat.min (String.length s) n.
Proof.
  unfold take. revert n. induction s as [|c s IH]; intros [|n]; try reflexivity.
  simpl. rewrite IH. reflexivity.
Qed.

Lemma classify_loop_range (table : list (string * list string)) (hay : string) :
  In (classify_loop table hay) ("Unknown" :: map fst table).
Proof.
  induction table as [|[t keys] table IH]; simpl; [left; reflexivity|].
  destruct (any_in keys hay); [right; left; reflexivity|].
  destruct IH as [H|H]; [left; exact H|right; right; exact H].
Qed.

Lemma find_red_flags_bound (text : string) (r : retriever) (doc_type : string) :
  length (find_red_flags text r doc_type) <= 5.
Proof.
  rewrite find_red_flags_parts, !length_app, length_map.
  assert (length (List.filter (fun t => contains t (lower text)) WEAK_LANGUAGE) <= 3).
  { etransitivity; [apply List.filter_length_le|reflexivity]. }
  set (w := length (List.filter _ WEAK_LANGUAGE)) in *.
  destruct (existsb _ BAD_JURISDICTION), (negb _); simpl; lia.
Qed.

Lemma find_red_flags_severity (text : string) (r : retriever) (doc_type : string) :
  Forall (fun i => issue_severity i <> Low) (find_red_flags text r doc_type).
Proof.
  rewrite find_red_flags_parts. apply Forall_app. split; [|apply Forall_app; split].
  - destruct (existsb _ _); constructor; [discriminate|constructor].
  - apply Forall_forall. intros i Hi. apply list_elem_of_In, in_map_iff in Hi as (t & <- & _).
    discriminate.
  - destruct (negb _); constructor; [discriminate|constructor].
Qed.

End ReportFacts.
Import ReportFacts.

(** An empty document text yields exactly one issue, the missing-signatory
    issue. *)
Theorem find_red_flags_empty_text (r : retriever) (doc_type : string) :
  find_red_flags EmptyString r doc_type = [sign_issue r doc_type].
Proof. reflexivity. Qed.

(** [_find_red_flags] reports at most five issues per document, each of
    severity High or Medium (never Low). *)
Theorem find_red_flags_at_most_five (text : string) (r : retriever) (doc_type : string) :
  length (find_red_flags text r doc_type) <= 5 /\
  Forall (fun i => issue_severity i = High \/ issue_severity i = Medium)
    (find_red_flags text r doc_type).
Proof.
  split; [apply find_red_flags_bound|].
  eapply Forall_impl; [apply find_red_flags_severity|].
  intros i Hi. destruct (issue_severity i) eqn:E; [exfalso; exact (Hi E)|right; reflexivity|left; reflexivity].
Qed.

(** The report counts every upload, lists at most five issues per uploaded
    document, and each entry has section ["N/A"] and a severity other than
    Low. *)
Theorem issues_found_bound (ups : list upload) (r : retriever) (hint : string) :
  let rep := analyze_documents ups r hint in
  rep_documents_uploaded rep = length ups /\
  length (rep_issues_found rep) <= 5 * rep_documents_uploaded rep /\
  Forall (fun f => found_section f = "N/A" /\ found_severity f <> Low) (rep_issues_found rep).
Proof.
  unfold analyze_documents. cbv zeta. cbn [rep_documents_uploaded rep_issues_found].
  split; [reflexivity|]. induction ups as [|u ups [IHl IHf]]; [split; [simpl; lia|constructor]|].
  cbn [map flat_map length]. rewrite length_app, length_map. split.
  - pose proof (find_red_flags_bound (info_text (make_info u)) r (info_type (make_info u))). lia.
  - apply Forall_app. split; [|exact IHf].
    apply Forall_forall. intros f Hf. apply list_elem_of_In, in_map_iff in Hf as (i & <- & Hi).
    split; [reflexivity|]. simpl.
    pose proof (find_red_flags_severity (info_text (make_info u)) r (info_type (make_info u))) as Hs.
    rewrite Forall_forall in Hs. apply Hs, list_elem_of_In, Hi.
Qed.

(** The extracted text is a prefix of the newline-joined paragraphs, of
    length [min(len(joined), 20000)]: a shorter text is kept whole. *)
Theorem extract_text_prefix (paragraphs : list string) :
  prefixb (extract_text paragraphs) (join NEWLINE paragraphs) = true /\
  String.length (extract_text paragraphs) = Nat.min (String.length (join NEWLINE paragraphs)) MAX_CHARS.
Proof. split; [apply take_prefix|apply take_length]. Qed.

(** [classify_doc_type] returns ["Unknown"] or one of the eight types of
    [DOC_TYPE_KEYWORDS]. *)
Theorem classify_doc_type_range (filename text : string) :
  In (classify_doc_type filename text) ("Unknown" :: map fst DOC_TYPE_KEYWORDS).
Proof. apply classify_loop_range. Qed.

(** For the ["Employment & HR"] process, ["Offer Letter"] and ["Employee
    Handbook"] are always missing, since no upload is ever classified as
    either; ["Employment Contract"] is missing unless an upload is
    classified as one. *)
Theorem employment_always_missing (ups : list upload) (r : retriever) :
  rep_missing_documents (analyze_documents ups r "Employment & HR") =
  (if existsb (String.eqb "Employment Contract") (classified_types ups)
   then [] else ["Employment Contract"]) ++ ["Offer Letter"; "Employee Handbook"].
Proof.
  rewrite missing_documents_eq.
  assert (Hr : forall t, In t (classified_types ups) -> In t (map fst DOC_TYPE_KEYWORDS)).
  { intros t Ht. unfold classified_types in Ht. apply filter_In in Ht as [Ht Hu].
    apply in_map_iff in Ht as (u & <- & _).
    destruct (classify_doc_type_range (orig_name u) (extract_text (doc_paragraphs u))) as [H|H];
      [rewrite <- H in Hu; discriminate|exact H]. }
  assert (Hnot : forall d, ~ In d (map fst DOC_TYPE_KEYWORDS) ->
            existsb (String.eqb d) (classified_types ups) = false).
  { intros d Hd. apply not_true_iff_false. intros Hx.
    apply existsb_exists in Hx as (t & Ht & Heq). apply String.eqb_eq in Heq. subst t.
    exact (Hd (Hr d Ht)). }
  change (required_for "Employment & HR") with ["Employment Contract"; "Offer Letter"; "Employee Handbook"].
  cbn [List.filter].
  rewrite (Hnot "Offer Letter"), (Hnot "Employee Handbook") by (simpl; intuition discriminate).
  destruct (existsb _ _); reflexivity.
Qed.

(** A process hint that is not a key of [REQUIRED_DOCS] gives zero required
    documents and no missing documents. *)
Theorem unknown_process_requires_nothing (ups : list upload) (r : retriever) (hint : string) :
  hint <> "Company Incorporation" -> hint <> "Employment & HR" ->
  rep_required_documents (analyze_documents ups r hint) = 0 /\
  rep_missing_documents (analyze_documents ups r hint) = [].
Proof.
  intros H1 H2.
  assert (Hn : required_for hint = []).
  { unfold required_for, REQUIRED_DOCS, list_to_map. cbn [fold_right fst snd].
    rewrite lookup_insert_ne by congruence. rewrite lookup_insert_ne by congruence.
    rewrite lookup_empty. reflexivity. }
  simpl. rewrite Hn. split; reflexivity.
Qed.

Lemma unknown_process_requires_nothing_witness :
  ("Company formation" <> "Company Incorporation" /\ "Company formation" <> "Employment & HR") /\
  rep_required_documents (analyze_documents [] (fun _ => []) "Company formation") = 0.
Proof.
  assert (H1 : "Company formation" <> "Company Incorporation") by discriminate.
  assert (H2 : "Company formation" <> "Employment & HR") by discriminate.
  split; [split; assumption|].
  exact (proj1 (unknown_process_requires_nothing [] (fun _ => []) "Company formation" H1 H2)).
Defined.

(** In the app, the process passed to [analyze_documents] is detected from
    the upload names, so the report's process is ["Company Incorporation"]
    with 7 required documents or ["Employment & HR"] with 3. *)
Theorem analyze_submission_process (ups : list upload) (r : retriever) :
  let rep := analyze_submission ups r in
  (rep_process rep = "Company Incorporation" /\ rep_required_documents rep = 7) \/
  (rep_process rep = "Employment & HR" /\ rep_required_documents rep = 3).
Proof.
  unfold analyze_submission, detect_process_from_docs. cbv zeta.
  destruct (any_in INCORPORATION_KEYS (join " " (map lower (map orig_name ups))));
    [left; split; reflexivity|].
  destruct (any_in EMPLOYMENT_KEYS (join " " (map lower (map orig_name ups))));
    [right|left]; split; reflexivity.
Qed.

(* ------------------------------------------------------------------ *)
(** ** The annotation writer leaves the rest of the document alone *)

Lemma add_comment_frame (d : docx) (note : string) (ok : bool) :
  let d1 := fst (add_comment_at_paragraph d (target_idx d) note ok) in
  length (paragraphs d1) = length (paragraphs d) /\
  (forall j, j <> target_idx d -> paragraphs d1 !! j = paragraphs d !! j) /\
  (forall p, paragraphs d !! target_idx d = Some p ->
     exists extra, paragraphs d1 !! target_idx d = Some (p ++ extra)) /\
  (exists added, comments d1 = comments d ++ added /\
     Forall (fun c => cmt_para c = target_idx d) added).
Proof.
  unfold add_comment_at_paragraph.
  destruct (paragraphs d !! target_idx d) as [p|] eqn:Hp.
  - destruct ok; simpl.
    + split; [reflexivity|split; [reflexivity|split]].
      * intros q Hq. injection Hq as <-. exists []. rewrite app_nil_r. exact Hp.
      * exists [mk_comment (target_idx d) note]. split; [reflexivity|]. repeat constructor.
    + split; [apply length_insert|split; [|split]].
      * intros j Hj. apply list_lookup_insert_ne. congruence.
      * intros q Hq. injection Hq as <-.
        eexists. apply list_lookup_insert_eq. apply lookup_lt_Some with p. exact Hp.
      * exists []. split; [rewrite app_nil_r; reflexivity|constructor].
  - simpl. split; [reflexivity|split; [reflexivity|split]].
    + intros q Hq. congruence.
    + exists []. split; [rewrite app_nil_r; reflexivity|constructor].
Qed.

Lemma insert_loop_frame (ok : nat -> bool) (issues : list issue) :
  forall i d,
  let d' := fst (insert_loop ok i d issues) in
  length (paragraphs d') = length (paragraphs d) /\
  (forall j, j <> target_idx d -> paragraphs d' !! j = paragraphs d !! j) /\
  (forall p, paragraphs d !! target_idx d = Some p ->
     exists extra, paragraphs d' !! target_idx d = Some (p ++ extra)) /\
  (exists added, comments d' = comments d ++ added /\
     Forall (fun c => cmt_para c = target_idx d) added).
Proof.
  induction issues as [|it issues IH]; intros i d d'.
  - split; [reflexivity|split; [reflexivity|split]].
    + intros p Hp. exists []. rewrite app_nil_r. exact Hp.
    + exists []. split; [rewrite app_nil_r; reflexivity|constructor].
  - unfold d'. cbn [insert_loop].
    pose proof (target_idx_add_comment d (note_of it) (ok i)) as Ht.
    destruct (add_comment_frame d (note_of it) (ok i)) as (A1 & A2 & A3 & A4).
    destruct (add_comment_at_paragraph d (target_idx d) (note_of it) (ok i)) as [d1 o].
    simpl in Ht, A1, A2, A3, A4.
    destruct (IH (S i) d1) as (B1 & B2 & B3 & B4).
    destruct (insert_loop ok (S i) d1 issues) as [d2 tr]. simpl in *.
    rewrite Ht in B2, B3, B4.
    split; [congruence|split; [|split]].
    + intros j Hj. rewrite B2, A2 by exact Hj. reflexivity.
    + intros p Hp. destruct (A3 p Hp) as [e1 He1]. destruct (B3 _ He1) as [e2 He2].
      exists (e1 ++ e2). rewrite app_assoc. exact He2.
    + destruct A4 as (a1 & Ha1 & Fa1). destruct B4 as (a2 & Ha2 & Fa2).
      exists (a1 ++ a2). split; [rewrite Ha2, Ha1, app_assoc; reflexivity|].
      apply Forall_app. split; assumption.
Qed.

(** [_insert_comments] keeps the number of paragraphs, leaves every paragraph
    but the anchor unchanged, only appends runs to the anchor, and only
    appends comments, all anchored at that paragraph. *)
Theorem insert_comments_frame (ok : nat -> bool) (d : docx) (issues : list issue) :
  let d' := fst (insert_comments ok d issues) in
  length (paragraphs d') = length (paragraphs d) /\
  (forall j, j <> target_idx d -> paragraphs d' !! j = paragraphs d !! j) /\
  (forall p, paragraphs d !! target_idx d = Some p ->
     exists extra, paragraphs d' !! target_idx d = Some (p ++ extra)) /\
  (exists added, comments d' = comments d ++ added /\
     Forall (fun c => cmt_para c = target_idx d) added).
Proof. apply insert_loop_frame. Qed.

(* ------------------------------------------------------------------ *)
(** ** Which documents get a reviewed copy *)

Lemma filter_nil_existsb {A} (f : A -> bool) (l : list A) :
  match List.filter f l with [] => false | _ => true end = existsb f l.
Proof.
  induction l as [|x l IH]; [reflexivity|]. simpl. destruct (f x); [reflexivity|exact IH].
Qed.

Lemma find_red_flags_nonempty (text : string) (r : retriever) (doc_type : string) :
  match find_red_flags text r doc_type with [] => false | _ => true end =
  existsb (fun t => contains t (lower text)) BAD_JURISDICTION ||
  existsb (fun t => contains t (lower text)) WEAK_LANGUAGE ||
  negb (existsb (fun k => contains k (lower text)) MISSING_SIGN_KEYS).
Proof.
  rewrite find_red_flags_parts, <- (filter_nil_existsb _ WEAK_LANGUAGE).
  destruct (existsb _ BAD_JURISDICTION); [reflexivity|].
  destruct (List.filter _ WEAK_LANGUAGE); [|reflexivity].
  destruct (negb _); reflexivity.
Qed.

(** [reviewed_paths] has one entry per upload, in upload order, whose
    analysed text contains a flagged jurisdiction or weak-language phrase or
    lacks every signature keyword; no other upload gets a reviewed copy. *)
Theorem reviewed_iff_flagged (ups : list upload) (r : retriever) :
  reviewed_names ups r =
  map orig_name
    (List.filter
       (fun u => let lt := lower (extract_text (doc_paragraphs u)) in
          existsb (fun t => contains t lt) BAD_JURISDICTION ||
          existsb (fun t => contains t lt) WEAK_LANGUAGE ||
          negb (existsb (fun k => contains k lt) MISSING_SIGN_KEYS))
       ups).
Proof.
  unfold reviewed_names. induction ups as [|u ups IH]; [reflexivity|].
  cbn [map List.filter]. rewrite find_red_flags_nonempty. simpl info_text.
  destruct (_ || _ || _); simpl; rewrite IH; reflexivity.
Qed.
